(** * Pharmacies-Review-Analysis: a shallow embedding of the data pipeline

    The development follows [src/utils.py], [src/app.py] and [src/plots.py].
    Python exceptions are modelled by [None] (or by an explicit error value);
    pandas float columns are modelled by [Q] (exact rationals: the float32
    rounding of [pd.to_numeric(..., downcast='float')] is not modelled);
    tables are lists of row records and column-wise pandas operations are
    applied row by row, which gives the same result for the row-local
    operations used here. *)

From Stdlib Require Import String Ascii List Bool ZArith QArith Qround Lia.
From Stdlib Require Import Permutation Sorted DecimalString.
Import ListNotations.

Open Scope string_scope.

(** ** Python string and list primitives *)
Module Py.

(** [prefixb p l]: [p] is a prefix of [l]. *)
Fixpoint prefixb (p l : list ascii) : bool :=
  match p, l with
  | [], _ => true
  | a :: p', b :: l' => Ascii.eqb a b && prefixb p' l'
  | _ :: _, [] => false
  end.

(** [str.split(sep)] for a non-empty [sep]: the string is scanned from the
    left, the current segment is kept reversed in [cur_rev], and a segment is
    closed as soon as it ends with [sep]; this finds the same leftmost,
    non-overlapping occurrences as CPython. *)
Fixpoint split_go (sep_rev : list ascii) (s : string) (cur_rev : list ascii)
  : list string :=
  match s with
  | EmptyString => [string_of_list_ascii (rev cur_rev)]
  | String c s' =>
      let cur' := c :: cur_rev in
      if prefixb sep_rev cur'
      then string_of_list_ascii (rev (skipn (length sep_rev) cur'))
             :: split_go sep_rev s' []
      else split_go sep_rev s' cur'
  end.

Definition split (s sep : string) : list string :=
  split_go (rev (list_ascii_of_string sep)) s [].

(** [l[i]] with Python's negative indices; [None] is an [IndexError]. *)
Definition getitem {A} (l : list A) (i : Z) : option A :=
  if (i <? 0)%Z then
    let j := (Z.of_nat (length l) + i)%Z in
    if (j <? 0)%Z then None else nth_error l (Z.to_nat j)
  else nth_error l (Z.to_nat i).

(** [''.join(filter(str.isdigit, s))] on the code points of [s];
    [isdigit] is [str.isdigit] on one character (a Unicode property). *)
Definition filter_digits (isdigit : N -> bool) (s : list N) : list N :=
  filter isdigit s.

(** [int(x)] on a float: truncation towards zero, to an unbounded Python
    int. *)
Definition trunc (q : Q) : Z := Z.quot (Qnum q) (Zpos (Qden q)).

(** The int64 range. *)
Definition in_int64 (z : Z) : bool := ((- 2 ^ 63 <=? z) && (z <? 2 ^ 63))%Z.

(** [astype(int)] on a float column without missing values: numpy's cast to
    int64 truncates towards zero and has no range check; on x86-64 a value
    out of the int64 range becomes [-2^63]. *)
Definition astype_int64 (q : Q) : Z :=
  let z := trunc q in if in_int64 z then z else (- 2 ^ 63)%Z.

(** [x // 1] followed by [int]: the floor. *)
Definition floor (q : Q) : Z := Qfloor q.

End Py.

(** ** Cells of a raw table

    A raw cell read from the sheet is a number, a text or a missing value. *)
Inductive cell :=
| CNum (q : Q)
| CText (s : string)
| CNaN.

Section Listings.

(** The number parser of [pd.to_numeric] on text cells (library code);
    [None] is a parse failure, which [errors='coerce'] turns into NaN. *)
Variable parse_number : string -> option Q.

(** [pd.to_numeric(col, errors='coerce')] on one cell. *)
Definition to_numeric (c : cell) : option Q :=
  match c with
  | CNum q => Some q
  | CText s => parse_number s
  | CNaN => None
  end.

(** [fillna(0)] on a numeric cell. *)
Definition fillna0 (o : option Q) : Q :=
  match o with Some q => q | None => 0%Q end.

End Listings.

(** A row of the listings table. The derived columns are [None] while absent
    from the frame. [createdAt] is parsed by pandas and feeds no derived
    column; it is not modelled. *)
Record listing := mkListing {
  listing_id : cell;
  name : string;
  address : string;
  contact : list N;   (* [str(x)] of the cell, as Unicode code points *)
  latitude : cell;
  longitude : cell;
  averageRating : cell;
  totalReviews : cell;
  markerColor : option string;
  city : option string;
  adjustedReview : option string;
  adjustedRating : option Z
}.

(** The lambda of line 39 of [utils.py]. *)
Definition marker_color (x : Q) : string :=
  if Qle_bool 100 x then "green"
  else if Qle_bool 50 x then "orange"
  else if Qle_bool 25 x then "lightgray"
  else "red".

(** [adjusted_reviews]. *)
Definition adjusted_reviews (review : Z) : string :=
  if (200 <=? review)%Z then "More than 200"
  else if (100 <? review)%Z && (review <=? 200)%Z then "100-200"
  else if (50 <? review)%Z && (review <=? 100)%Z then "50 to 100"
  else "Up-to 50".

(** The lambda of line 41: [x.split(', ')[-2].split(' ')[-1]]. *)
Definition city_of (x : string) : option string :=
  match Py.getitem (Py.split x ", ") (-2) with
  | None => None
  | Some seg => Py.getitem (Py.split seg " ") (-1)
  end.

(** ** Listings Normalizer: [pre_process_listings_data] *)

(** [map] whose function may raise: the first exception aborts the whole
    column, as in pandas' [Series.apply]. *)
Fixpoint map_opt {A B} (f : A -> option B) (l : list A) : option (list B) :=
  match l with
  | [] => Some []
  | x :: l' =>
      match f x with
      | None => None
      | Some y => match map_opt f l' with
                  | None => None
                  | Some ys => Some (y :: ys)
                  end
      end
  end.

(** Ascending sort for an order [le]. pandas' [sort_values] uses quicksort,
    which leaves the order of equal keys unspecified; the model takes the
    stable insertion sort, one admissible order. *)
Section SortBy.
Context {A : Type} (le : A -> A -> bool).

Fixpoint insert_by (x : A) (l : list A) : list A :=
  match l with
  | [] => [x]
  | y :: l' => if le x y then x :: l else y :: insert_by x l'
  end.

Fixpoint sort_by (l : list A) : list A :=
  match l with
  | [] => []
  | x :: l' => insert_by x (sort_by l')
  end.

End SortBy.

(** The value of a numeric column of a processed row. *)
Definition num (c : cell) : Q :=
  match c with CNum q => q | _ => 0%Q end.

(** [sort_values(by='totalReviews')], ascending. *)
Definition listing_le (a b : listing) : bool :=
  Qle_bool (num (totalReviews a)) (num (totalReviews b)).

Section Normalizer.

Variable parse_number : string -> option Q.
(** [str.isdigit] on one character. *)
Variable isdigit : N -> bool.

(** Lines 36-43 of [utils.py] on one row: [adjust_column_datatypes]
    (whose [contact] lambda keeps the digits of [str(x)]), [fillna(0)],
    [markerColor] (on the float column), [astype(int)], [city] (which may
    raise), [adjustedReview] (on the int column) and [adjustedRating]. The
    [index] column added by [reset_index] is not modelled. *)
Definition process_listing_row (r : listing) : option listing :=
  let avg := fillna0 (to_numeric parse_number (averageRating r)) in
  let lat := fillna0 (to_numeric parse_number (latitude r)) in
  let lon := fillna0 (to_numeric parse_number (longitude r)) in
  let tr := fillna0 (to_numeric parse_number (totalReviews r)) in
  let lid := fillna0 (to_numeric parse_number (listing_id r)) in
  let mc := marker_color tr in
  let tri := Py.astype_int64 tr in
  match city_of (address r) with
  | None => None
  | Some c =>
      Some {| listing_id := CNum lid;
              name := name r;
              address := address r;
              contact := Py.filter_digits isdigit (contact r);
              latitude := CNum lat;
              longitude := CNum lon;
              averageRating := CNum avg;
              totalReviews := CNum (inject_Z tri);
              markerColor := Some mc;
              city := Some c;
              adjustedReview := Some (adjusted_reviews tri);
              adjustedRating := Some (Py.floor avg) |}
  end.

(** [pre_process_listings_data]; [None] when an exception is raised. *)
Definition pre_process_listings_data (data : list listing) : option (list listing) :=
  match map_opt process_listing_row data with
  | None => None
  | Some rows => Some (sort_by listing_le rows)
  end.

End Normalizer.

(** ** Reviews Normalizer: [pre_process_reviews] *)

(** A pandas [Timestamp], field by field. *)
Record timestamp := mkTimestamp {
  ts_year : Z; ts_month : Z; ts_day : Z;
  ts_hour : Z; ts_minute : Z; ts_second : Z
}.

(** A [datetime.date], the value of [.dt.date]. *)
Record date_value := mkDate { d_year : Z; d_month : Z; d_day : Z }.

(** A cell of the [datetime] column: a parsed timestamp, raw text, a date
    object (after [.dt.date]) or a missing value. *)
Inductive dtcell :=
| DTimestamp (t : timestamp)
| DText (s : string)
| DDate (d : date_value)
| DNaT.

(** A row of the reviews table; [date] is [None] while the column is absent. *)
Record review := mkReview {
  place_Name : string;
  reviewer : string;
  text : cell;
  rating : cell;
  datetime : dtcell;
  date : option string
}.

Definition date_of_timestamp (t : timestamp) : date_value :=
  mkDate (ts_year t) (ts_month t) (ts_day t).

Definition timestamp_of_date (d : date_value) : timestamp :=
  mkTimestamp (d_year d) (d_month d) (d_day d) 0 0 0.

(** Decimal digits of a non-negative integer, left-padded with zeros to
    [width] characters. *)
Definition digits (n : Z) : string :=
  NilEmpty.string_of_uint (N.to_uint (Z.to_N n)).

Definition zero_pad (width : nat) (s : string) : string :=
  append (String.concat "" (repeat "0" (width - String.length s))) s.

(** [strftime("%d-%m-%Y")]. *)
Definition strftime_dmy (t : timestamp) : string :=
  zero_pad 2 (digits (ts_day t)) ++ "-" ++ zero_pad 2 (digits (ts_month t))
  ++ "-" ++ zero_pad 4 (digits (ts_year t)).

(** Lexicographic order of timestamps, the order of [sort_values]. *)
Definition timestamp_key (t : timestamp) : list Z :=
  [ts_year t; ts_month t; ts_day t; ts_hour t; ts_minute t; ts_second t].

Fixpoint lex_le (a b : list Z) : bool :=
  match a, b with
  | [], _ => true
  | _ :: _, [] => false
  | x :: a', y :: b' => (x <? y)%Z || ((x =? y)%Z && lex_le a' b')
  end.

Section ReviewsNormalizer.

(** The text parser of [pd.to_datetime]; [None] raises (default
    [errors='raise']). *)
Variable parse_datetime : string -> option timestamp.
(** [str] of a float (the Python repr). *)
Variable float_repr : Q -> string.
Variable parse_number : string -> option Q.

(** [pd.to_datetime] on one cell; [None] raises. A missing value becomes
    NaT, which [fillna(0)] turns into an object column on which [.dt]
    raises: it is modelled as raising too. *)
Definition to_datetime (c : dtcell) : option timestamp :=
  match c with
  | DTimestamp t => Some t
  | DText s => parse_datetime s
  | DDate d => Some (timestamp_of_date d)
  | DNaT => None
  end.

(** [astype(str)] on one cell of [text]. *)
Definition astype_str (c : cell) : string :=
  match c with
  | CNum q => float_repr q
  | CText s => s
  | CNaN => "nan"
  end.

(** Lines 103-106 of [utils.py] on one row. *)
Definition process_review_row (r : review) : option review :=
  match to_datetime (datetime r) with
  | None => None
  | Some t =>
      Some {| place_Name := place_Name r;
              reviewer := reviewer r;
              text := CText (astype_str (text r));
              rating := CNum (fillna0 (to_numeric parse_number (rating r)));
              datetime := DTimestamp t;
              date := Some (strftime_dmy t) |}
  end.

Definition review_le (a b : review) : bool :=
  match datetime a, datetime b with
  | DTimestamp x, DTimestamp y => lex_le (timestamp_key x) (timestamp_key y)
  | _, _ => true
  end.

(** [pre_process_reviews]; [None] when an exception is raised. *)
Definition pre_process_reviews (data : list review) : option (list review) :=
  match map_opt process_review_row data with
  | None => None
  | Some rows => Some (sort_by review_le rows)
  end.

End ReviewsNormalizer.

(** ** Sentiment Scorer: [calculate_sentiment_score] *)

(** The three polarity analyzers (library code): [TextBlob],
    [TextBlobDE] and [TextBlob] with the French [PatternAnalyzer]. *)
Record analyzers := mkAnalyzers {
  polarity_en : string -> Q;
  polarity_de : string -> Q;
  polarity_fr : string -> Q
}.

Definition supported_languages : list string := ["en"; "de"; "fr"].

(** Python's [lang in [...]] on a list of strings. *)
Definition str_in (x : string) (l : list string) : bool :=
  existsb (String.eqb x) l.

(** [calculate_sentiment_score] on the row's [text], [language] and
    [rating]; [None] is Python's [None]. *)
Definition calculate_sentiment_score (an : analyzers)
  (text : string) (lang : string) (rating : Q) : option Q :=
  if str_in lang supported_languages then
    if String.eqb lang "en" then Some (polarity_en an text)
    else if String.eqb lang "de" then Some (polarity_de an text)
    else if String.eqb lang "fr" then Some (polarity_fr an text)
    else None
  else if (String.length text =? 0)%nat || negb (str_in lang supported_languages) then
    if Qeq_bool rating 5 then Some 1%Q
    else if Qeq_bool rating 4 then Some (1 # 2)%Q
    else if Qeq_bool rating 3 then Some 0%Q
    else if Qeq_bool rating 2 then Some (-1 # 2)%Q
    else if Qeq_bool rating 1 then Some (-1)%Q
    else None
  else None.

(** [insert_sentiment_scores]; [None] raises. [classify] is
    [langid.classify(x)[0]] on a text; [langid.classify] raises a
    [TypeError] on a cell that is not a text (NaN or a number). On a frame
    without rows, [df.apply(..., axis=1)] returns a copy of the frame, and
    assigning that frame to the single column [sentiment_score] raises a
    [ValueError]. The new columns are returned next to each row. *)
Definition insert_sentiment_scores (classify : string -> string) (an : analyzers)
  (df : list review) : option (list (review * string * option Q)) :=
  match df with
  | [] => None
  | _ =>
      map_opt (fun r =>
                 match text r with
                 | CText t =>
                     let lang := classify t in
                     Some (r, lang, calculate_sentiment_score an t lang (num (rating r)))
                 | _ => None
                 end) df
  end.

(** ** KPIs of the reviews analysis: [calculate_kpis] *)

Inductive py_exception := ZeroDivisionError | TypeError | AttributeError.

Record kpis := mkKpis {
  total_reviews : nat;
  average_ratings : option Q;           (* [None] is NaN *)
  yearly_reviews_rate_percentage : Q;
  rating_ratio : option Q                (* [None] is NaN or inf *)
}.

Definition sum_q (l : list Q) : Q := fold_right Qplus 0%Q l.

(** [Series.mean]: NaN on an empty series. *)
Definition mean (l : list Q) : option Q :=
  match l with
  | [] => None
  | _ => Some (sum_q l / inject_Z (Z.of_nat (length l)))%Q
  end.

(** [Series.nunique] of the values left after dropping missing ones. *)
Definition nunique (l : list Z) : nat := length (nodup Z.eq_dec l).

Definition is_text (c : cell) : bool :=
  match c with CText _ => true | _ => false end.

(** The values of a numeric column; missing values are skipped. *)
Definition rating_values (cs : list cell) : list Q :=
  flat_map (fun c => match c with CNum q => [q] | _ => [] end) cs.

(** [Series.mean] of a column of cells (pandas 2): missing values are
    skipped; a text in the column raises a [TypeError] ([None]). *)
Definition cell_mean (cs : list cell) : option (option Q) :=
  if existsb is_text cs then None else Some (mean (rating_values cs)).

(** [.dt.year] on one cell: a timestamp gives its year and NaT a missing
    value ([Some None]); a text or a date makes the column one of objects,
    on which [.dt] raises ([None]). *)
Definition dt_year (c : dtcell) : option (option Z) :=
  match c with
  | DTimestamp t => Some (Some (ts_year t))
  | DNaT => Some None
  | _ => None
  end.

(** The non-missing values of a column. *)
Definition dropna {A} (l : list (option A)) : list A :=
  flat_map (fun o => match o with Some y => [y] | None => [] end) l.

(** [calculate_kpis]; [whole] is [len(reviews_data)]. [total_reviews] and
    [total_years] are Python ints, so [/] raises on a zero divisor; the
    numpy float [average_ratings] never raises. *)
Definition calculate_kpis (whole : nat) (filtered_data : list review)
  : py_exception + kpis :=
  let total_reviews := length filtered_data in
  match cell_mean (map rating filtered_data) with
  | None => inl TypeError
  | Some average_ratings =>
  match map_opt (fun r => dt_year (datetime r)) filtered_data with
  | None => inl AttributeError
  | Some years =>
  let total_years := nunique (dropna years) in
  if (total_years =? 0)%nat then inl ZeroDivisionError
  else
    let yearly := (inject_Z (Z.of_nat total_reviews) / inject_Z (Z.of_nat total_years))%Q in
    let ratio :=
      match average_ratings with
      | None => None
      | Some a =>
          if (whole =? 0)%nat then None
          else Some (a * inject_Z (Z.of_nat total_reviews)
                     / inject_Z (Z.of_nat whole) * 100)%Q
      end in
    inr (mkKpis total_reviews average_ratings yearly ratio)
  end
  end.

(** The years of the rows holding a timestamp. *)
Definition timestamp_years (df : list review) : list Z :=
  flat_map (fun r => match datetime r with DTimestamp t => [ts_year t] | _ => [] end) df.

(** ** The views of [app.py] over the shared tables

    The module-level frames [data] and [reviews_data] of [app.py] are an
    explicit store; every view takes the store and returns the store after
    it ran, next to its result. The widgets' selections are arguments. *)
(** The dtype of the [datetime] column of the shared reviews table:
    [datetime64] after [pd.to_datetime], [object] after [.dt.date]. *)
Inductive dtype := Datetime64 | Object.

Record app_state := mkAppState {
  data : list listing;
  reviews_data : list review;
  reviews_datetime_dtype : dtype
}.

(** [Series.isin] on a column holding an optional value. *)
Definition isin {A} (eqb : A -> A -> bool) (x : option A) (l : list A) : bool :=
  match x with Some v => existsb (eqb v) l | None => false end.

(** [map_view] without the map rendering: [data.copy()], then the three
    optional filters. *)
Definition map_view (name_sel address_sel city_sel : list string) (st : app_state)
  : app_state * list listing :=
  let filtered_data := data st in
  let filtered_data :=
    match name_sel with
    | [] => filtered_data
    | _ => filter (fun r => str_in (name r) name_sel) filtered_data
    end in
  let filtered_data :=
    match address_sel with
    | [] => filtered_data
    | _ => filter (fun r => str_in (address r) address_sel) filtered_data
    end in
  let filtered_data :=
    match city_sel with
    | [] => filtered_data
    | _ => filter (fun r => isin String.eqb (city r) city_sel) filtered_data
    end in
  (st, filtered_data).

(** [filter_data] of the list view ([dropna] finds nothing after
    [fillna(0)]). *)
Definition filter_data (stars : list Z) (reviews : list string) (nm : string)
  (cities : list string) (st : app_state) : app_state * list listing :=
  let df := data st in
  let df := filter (fun r => isin Z.eqb (adjustedRating r) stars) df in
  let df := filter (fun r => isin String.eqb (adjustedReview r) reviews) df in
  let df := filter (fun r => isin String.eqb (city r) cities) df in
  let df := if String.eqb nm "All" then df
            else filter (fun r => String.eqb (name r) nm) df in
  (st, df).

(** [.dt.date] on one cell of a [datetime64] column: a timestamp gives its
    date and NaT stays NaT; a text or a date cannot be held by such a
    column, and [.dt] raises on it. *)
Definition dt_date (c : dtcell) : option dtcell :=
  match c with
  | DTimestamp t => Some (DDate (date_of_timestamp t))
  | DNaT => Some DNaT
  | _ => None
  end.

(** [reviews_data['datetime'].dt.date] on the shared table ([None]
    raises): [.dt] raises on a column of [object] dtype, whatever its
    cells; the result is a column of [object] dtype. *)
Definition dt_date_column (dty : dtype) (rs : list review) : option (list review) :=
  match dty with
  | Object => None
  | Datetime64 =>
      map_opt (fun r => match dt_date (datetime r) with
                        | None => None
                        | Some c => Some {| place_Name := place_Name r;
                                            reviewer := reviewer r;
                                            text := text r; rating := rating r;
                                            datetime := c; date := date r |}
                        end) rs
  end.

Definition date_le (a b : date_value) : bool :=
  lex_le [d_year a; d_month a; d_day a] [d_year b; d_month b; d_day b].

(** [filter_reviews_data]: the mask, the column selection (which drops
    [date]) and [pd.to_datetime] on the copy. *)
Definition filter_reviews_data (pharmacy : string) (start_date end_date : date_value)
  (st : app_state) : list review :=
  let keep r :=
    match datetime r with
    | DDate d => date_le start_date d && date_le d end_date
                 && String.eqb (place_Name r) pharmacy
    | _ => false
    end in
  map (fun r => {| place_Name := place_Name r; reviewer := reviewer r;
                   text := text r; rating := rating r;
                   datetime := match datetime r with
                               | DDate d => DTimestamp (timestamp_of_date d)
                               | c => c
                               end;
                   date := None |})
      (filter keep (reviews_data st)).

(** [reviews_analysis] without the rendering: line 268 assigns
    [reviews_data['datetime'].dt.date] to the module-level frame, then the
    selected period [start_date, end_date] filters it. [None] raises. *)
Definition reviews_analysis (pharmacy : string) (start_date end_date : date_value)
  (st : app_state) : option (app_state * list review) :=
  match dt_date_column (reviews_datetime_dtype st) (reviews_data st) with
  | None => None
  | Some rs =>
      let st' := {| data := data st; reviews_data := rs;
                    reviews_datetime_dtype := Object |} in
      Some (st', filter_reviews_data pharmacy start_date end_date st')
  end.

(** ** Top performers: [top_performing_places] (without the figure) *)

(** A float that may be infinite or NaN, for a division by zero. *)
Inductive fval := Fin (q : Q) | PosInf | NegInf | NaN.

(** Float division [a / b]. *)
Definition fdiv (a b : Q) : fval :=
  if Qeq_bool b 0 then
    if negb (Qle_bool a 0) then PosInf
    else if negb (Qle_bool 0 a) then NegInf
    else NaN
  else Fin (a / b)%Q.

Definition fmul100 (x : fval) : fval :=
  match x with Fin q => Fin (q * 100)%Q | y => y end.

(** The position of a value in [sort_values(ascending=False)]: [+inf],
    finite values, [-inf], then NaN last ([na_position='last']). *)
Definition fclass (x : fval) : nat :=
  match x with PosInf => 3 | Fin _ => 2 | NegInf => 1 | NaN => 0 end%nat.

Definition fval_ge (a b : fval) : bool :=
  (fclass b <? fclass a)%nat ||
  ((fclass a =? fclass b)%nat &&
   match a, b with Fin x, Fin y => Qle_bool y x | _, _ => true end).

Record top_place := mkTopPlace {
  tp_name : string;
  tp_averageRating : Q;
  tp_totalReviews : Q;
  tp_rank : fval
}.

Definition is_nan (c : cell) : bool :=
  match c with CNaN => true | _ => false end.

(** [df.groupby("name").agg(mean, sum).reset_index()]: one entry per name,
    in ascending name order ([None] raises). A text in [averageRating]
    makes the [mean] of its group raise a [TypeError] (pandas 2). *)
Definition groupby_name (df : list listing) : option (list (string * Q * Q)) :=
  if existsb (fun r => is_text (averageRating r)) df then None else
  let names := sort_by String.leb (nodup string_dec (map name df)) in
  Some (map (fun n =>
         let g := filter (fun r => String.eqb (name r) n) df in
         (n,
          (sum_q (map (fun r => num (averageRating r)) g)
           / inject_Z (Z.of_nat (length g)))%Q,
          sum_q (map (fun r => num (totalReviews r)) g))) names).

Definition top_le (a b : top_place) : bool := fval_ge (tp_rank a) (tp_rank b).

(** The surviving groups with their rank column, before sorting ([None]
    raises). A text in [totalReviews] raises too: the [sum] of its group
    raises a [TypeError] when the group also holds a number, and otherwise
    concatenates the texts, on which [df["totalReviews"].mean()] raises. *)
Definition top_candidates (df : list listing) : option (list top_place) :=
  let df := filter (fun r => negb (is_nan (averageRating r))) df in
  match groupby_name df with
  | None => None
  | Some groups =>
      if existsb (fun r => is_text (totalReviews r)) df then None else
      match mean (map (fun '(_, _, t) => t) groups) with
      | None => Some []
      | Some thresh =>
          Some (map (fun '(n, a, t) => mkTopPlace n a t (fmul100 (fdiv a t)))
                    (filter (fun '(_, _, t) => Qle_bool thresh t) groups))
      end
  end.

(** [top_performing_places]: the candidates sorted by [rank] descending,
    [head(30)]. *)
Definition top_performing_places (df : list listing) : option (list top_place) :=
  match top_candidates df with
  | None => None
  | Some cands => Some (firstn 30 (sort_by top_le cands))
  end.

(** ** Star filter labels: [get_star_ratings] *)

Definition star_value (star : string) : Z :=
  if String.eqb star "⭐ 5 😊" then 5
  else if String.eqb star "⭐ 4 🙂" then 4
  else if String.eqb star "⭐ 3 😕" then 3
  else if String.eqb star "⭐ 1 😑" then 2
  else 1.

(** The loop of [get_star_ratings], appending to [int_rating_list]. *)
Definition get_star_ratings (rating_list : list string) : list Z :=
  fold_left (fun int_rating_list star => app int_rating_list [star_value star])
            rating_list [].

(** ** The composite rank of the spec (for comparison with the code)

    Spec: rank = (rank of totalReviews descending, ties share the minimum
    rank) + (rank of averageRating descending, ties share the minimum
    rank). *)
Definition spec_min_rank_desc (vals : list Q) (x : Q) : nat :=
  S (length (filter (fun y => negb (Qle_bool y x)) vals)).

Definition spec_rank (tbl : list listing) (r : listing) : nat :=
  spec_min_rank_desc (map (fun r => num (totalReviews r)) tbl) (num (totalReviews r))
  + spec_min_rank_desc (map (fun r => num (averageRating r)) tbl) (num (averageRating r)).

(** ** The spec's fallback table (for comparison with the code)

    Spec: 5 -> 1.0, 4 -> 0.5, 3 -> 0.0, 2 -> -0.5, 1 -> -1.0, any other
    rating -> null. *)
Definition spec_fallback_score (rating : Q) : option Q :=
  if Qeq_bool rating 5 then Some 1%Q
  else if Qeq_bool rating 4 then Some (1 # 2)%Q
  else if Qeq_bool rating 3 then Some 0%Q
  else if Qeq_bool rating 2 then Some (-1 # 2)%Q
  else if Qeq_bool rating 1 then Some (-1)%Q
  else None.

(** ** A two-row listings table used as a concrete input *)

(** The code points of an ASCII string. *)
Definition code_points (s : string) : list N :=
  map N_of_ascii (list_ascii_of_string s).

(** [str.isdigit] on the ASCII characters of the sample tables. *)
Definition ascii_isdigit (c : N) : bool := (48 <=? c)%N && (c <=? 57)%N.

Definition raw_listing (nm addr : string) (avg tr : Q) : listing :=
  mkListing (CNum 1) nm addr (code_points "+41 31 000 00 00") (CNum 0) (CNum 0)
            (CNum avg) (CNum tr) None None None None.

Definition rank_example_table : list listing :=
  [raw_listing "Apotheke B" "Marktgasse 1, 3000 Bern, Schweiz" 5 20;
   raw_listing "Apotheke A" "Bahnhofstrasse 2, 8000 Zurich, Schweiz" 1 10].

Definition rank_example_output : list listing :=
  Eval vm_compute in
    match pre_process_listings_data (fun _ => None) ascii_isdigit rank_example_table with
    | Some out => out
    | None => []
    end.


(** ** A store with one normalized review, used as a concrete input *)
Definition shared_review_example : review :=
  mkReview "Apotheke A" "Reviewer" (CText "Sehr gut") (CNum 5)
           (DTimestamp (mkTimestamp 2023 5 1 10 30 0)) (Some "01-05-2023").

Definition shared_state_example : app_state :=
  mkAppState rank_example_output [shared_review_example] Datetime64.

Definition period_start : date_value := mkDate 2023 1 1.
Definition period_end : date_value := mkDate 2023 12 31.

Definition shared_state_after_analysis : app_state :=
  Eval vm_compute in
    match reviews_analysis "Apotheke A" period_start period_end shared_state_example with
    | Some (st, _) => st
    | None => shared_state_example
    end.

(** ** A table of 31 pharmacies with 10 reviews each and ratings 1 .. 31 *)
Definition top_example_table : list listing :=
  map (fun k => raw_listing (String.concat "" (repeat "a" (S k)))
                            "Marktgasse 1, 3000 Bern, Schweiz"
                            (inject_Z (Z.of_nat (S k))) 10)
      (seq 0 31).

(** Its surviving groups, computed. *)
Definition top_example_candidates : list top_place :=
  Eval vm_compute in
    match top_candidates top_example_table with Some c => c | None => [] end.

(** ** [create_map] (without the HTML of the popups) *)

Record marker := mkMarker {
  mk_location : Q * Q;
  mk_tooltip : string;
  mk_color : string
}.

Record folium_map := mkFoliumMap {
  fm_location : Q * Q;
  fm_zoom_start : Z;
  fm_markers : list marker
}.

(** One marker per row; a missing [markerColor] column raises. *)
Definition row_marker (row : listing) : option marker :=
  match markerColor row with
  | Some c => Some (mkMarker (num (latitude row), num (longitude row)) (name row) c)
  | None => None
  end.

Definition create_map (data : list listing) : option folium_map :=
  match data with
  | [] => Some (mkFoliumMap (46.9480, 7.4474)%Q 8 [])
  | _ =>
      match mean (map (fun r => num (latitude r)) data),
            mean (map (fun r => num (longitude r)) data) with
      | Some lat, Some lon =>
          match map_opt row_marker data with
          | Some ms => Some (mkFoliumMap (lat, lon) 10 ms)
          | None => None
          end
      | _, _ => None
      end
  end.

(** ** [list_view] and [display_list_view] *)

(** [Series.unique] of a column of optional strings (missing values are
    not produced by the normalizer). *)
Definition unique_strings (l : list (option string)) : list string :=
  nodup string_dec (flat_map (fun o => match o with Some s => [s] | None => [] end) l).

(** [list_view] with the selections of its four widgets: an empty selection
    means "All". *)
Definition list_view_rows (stars : list Z) (reviews : list string) (nm : string)
  (cities : list string) (st : app_state) : list listing :=
  let stars := match stars with [] => [5; 4; 3; 2; 1]%Z | _ => stars end in
  let reviews := match reviews with
                 | [] => unique_strings (map adjustedReview (data st))
                 | _ => reviews end in
  let cities := match cities with
                | [] => unique_strings (map city (data st))
                | _ => cities end in
  snd (filter_data stars reviews nm cities st).

(** [sort_values(['totalReviews', 'averageRating'], ascending=[False, False])]. *)
Definition listing_desc_le (a b : listing) : bool :=
  negb (Qle_bool (num (totalReviews a)) (num (totalReviews b))) ||
  (Qeq_bool (num (totalReviews a)) (num (totalReviews b)) &&
   Qle_bool (num (averageRating b)) (num (averageRating a))).

Inductive list_display :=
| NoListedPharmacy
| PharmacyCards (pharmacies : list listing).

Definition display_list_view (df : list listing) : list_display :=
  match sort_by listing_desc_le df with
  | [] => NoListedPharmacy
  | pharmacies => PharmacyCards pharmacies
  end.

(** ** [display_pharmacy] and [display_reviews] *)

Record review_card_view := mkReviewCard {
  rc_reviewer : string;
  rc_date : option string;
  rc_stars : Q;
  rc_body : option cell      (* [None]: the text "nan" is not written *)
}.

Inductive reviews_display :=
| NoReviewsFound
| ReviewCards (cards : list review_card_view).

(** [review["text"] != "nan"] decides whether the body is written. *)
Definition review_body (c : cell) : option cell :=
  match c with
  | CText s => if String.eqb s "nan" then None else Some c
  | _ => Some c
  end.

(** [sort_values(by="datetime", ascending=False)]. *)
Definition review_desc_le (a b : review) : bool := review_le b a.

(** The ratings kept by [display_reviews] for a selection of labels. *)
Definition star_rating_list (review_star : list string) : list Z :=
  match review_star with
  | [] => [5; 4; 3; 2; 1]%Z
  | _ => get_star_ratings review_star
  end.

(** The reviews shown, in display order. *)
Definition shown_reviews (review_star : list string) (pharmacy_reviews : list review)
  : list review :=
  sort_by review_desc_le
    (filter (fun r => existsb (fun k => Qeq_bool (num (rating r)) (inject_Z k))
                              (star_rating_list review_star))
            pharmacy_reviews).

Definition display_reviews (review_star : list string) (pharmacy_reviews : list review)
  : reviews_display :=
  match shown_reviews review_star pharmacy_reviews with
  | [] => NoReviewsFound
  | rs => ReviewCards (map (fun r => mkReviewCard (reviewer r) (date r) (num (rating r))
                                                  (review_body (text r))) rs)
  end.

(** [display_pharmacy]: the count of the expander's label
    [Reviews (n)] and the reviews displayed under it. *)
Definition display_pharmacy (pharmacy : listing) (review_star : list string)
  (st : app_state) : nat * reviews_display :=
  let pharmacy_reviews :=
    filter (fun r => String.eqb (place_Name r) (name pharmacy)) (reviews_data st) in
  (length pharmacy_reviews, display_reviews review_star pharmacy_reviews).

(** A raw reviews table with a missing text. *)
Definition review_example_table : list review :=
  [mkReview "Apotheke A" "Reviewer" CNaN (CNum 4)
            (DTimestamp (mkTimestamp 2022 3 4 9 0 0)) None;
   shared_review_example].

(** The same table with a review whose [datetime] is NaT. *)
Definition review_nat_table : list review :=
  review_example_table ++
  [mkReview "Apotheke A" "Reviewer" (CText "Gut") (CNum 3) DNaT None].

(** ** [plots.py]: the rating pie chart ([rating_breakdown_pie]) *)

Definition Q_eq_dec (x y : Q) : {x = y} + {x <> y}.
Proof. decide equality; first [apply Pos.eq_dec | apply Z.eq_dec]. Defined.

(** A group key of [groupby("rating")]: a float, compared by value (so
    the key is the reduced fraction), or a text. *)
Inductive rating_group := RNum (q : Q) | RText (s : string).

Definition rating_group_eq_dec (x y : rating_group) : {x = y} + {x <> y}.
Proof. decide equality; [apply Q_eq_dec | apply string_dec]. Defined.

(** The group key of a row; a missing rating is dropped ([dropna=True]). *)
Definition rating_key (r : review) : option rating_group :=
  match rating r with
  | CNum q => Some (RNum (Qred q))
  | CText s => Some (RText s)
  | CNaN => None
  end.

(** [count()] counts the non-missing texts. *)
Definition has_text (r : review) : bool := negb (is_nan (text r)).

Definition key_is (k : rating_group) (r : review) : bool :=
  match rating_key r with
  | Some k' => if rating_group_eq_dec k' k then true else false
  | None => false
  end.

(** The order of [sort=True]: numbers ascending; when the keys mix numbers
    and texts, [safe_sort] puts the numbers first, then the texts in
    ascending order. *)
Definition rating_group_le (a b : rating_group) : bool :=
  match a, b with
  | RNum x, RNum y => Qle_bool x y
  | RNum _, RText _ => true
  | RText _, RNum _ => false
  | RText x, RText y => String.leb x y
  end.

(** The group keys, in [sort=True] order. *)
Definition rating_keys (df : list review) : list rating_group :=
  sort_by rating_group_le
    (nodup rating_group_eq_dec (flat_map (fun r => match rating_key r with
                                                   | Some k => [k] | None => [] end) df)).

Definition count_text (df : list review) (k : rating_group) : nat :=
  length (filter (fun r => key_is k r && has_text r) df).

Section RatingPie.

(** [int(s)] on a text (Python's integer parser); [None] raises a
    [ValueError]. *)
Variable py_int_of_str : string -> option Z.

(** [astype(int)] of the column of group keys ([None] raises). Without a
    text key the column is a float column, cast as [astype_int64]. With a
    text key it is an [object] column, whose values numpy converts one by
    one as [int(x)] does, raising an [OverflowError] out of the int64
    range. *)
Definition keys_astype_int (ks : list rating_group) : option (list Z) :=
  if existsb (fun k => match k with RText _ => true | RNum _ => false end) ks then
    map_opt (fun k =>
               match match k with
                     | RNum q => Some (Py.trunc q)
                     | RText s => py_int_of_str s
                     end with
               | Some z => if Py.in_int64 z then Some z else None
               | None => None
               end) ks
  else Some (map (fun k => match k with RNum q => Py.astype_int64 q | RText _ => 0%Z end) ks).

(** The [Rating-Formatted] map; a rating outside 1..5 maps to NaN. *)
Definition pie_label (z : Z) : option string :=
  if (z =? 5)%Z then Some "⭐ 5 😊"
  else if (z =? 4)%Z then Some "⭐ 4 🙂"
  else if (z =? 3)%Z then Some "⭐ 3 😕"
  else if (z =? 2)%Z then Some "⭐ 2 😒"
  else if (z =? 1)%Z then Some "⭐ 1 😑"
  else None.

Record pie_slice := mkPieSlice {
  ps_rating : Z;               (* [astype(int)] of the group key *)
  ps_label : option string;
  ps_count : nat
}.

(** The slices of the pie, in the order of [sort_values(by="rating")]
    ([None] raises). *)
Definition rating_breakdown_pie (df : list review) : option (list pie_slice) :=
  let ks := rating_keys df in
  match keys_astype_int ks with
  | None => None
  | Some zs =>
      Some (sort_by (fun a b => (ps_rating a <=? ps_rating b)%Z)
              (map (fun '(k, z) => mkPieSlice z (pie_label z) (count_text df k))
                   (combine ks zs)))
  end.

End RatingPie.

(** ** [plots.py]: average rating per period *)

(** The rows of [df] keyed by a function of their timestamp, with their
    rating. [.dt] raises on a column that is not datetime-like; a missing
    timestamp (NaT) gives a missing key, which [groupby] drops. *)
Definition dt_rows (key : timestamp -> list Z) (df : list review)
  : option (list (list Z * cell)) :=
  match map_opt (fun r => match datetime r with
                          | DTimestamp t => Some [(key t, rating r)]
                          | DNaT => Some []
                          | _ => None
                          end) df with
  | Some ls => Some (concat ls)
  | None => None
  end.

Definition list_Z_eqb (a b : list Z) : bool :=
  if list_eq_dec Z.eq_dec a b then true else false.

(** [groupby(keys)['rating'].mean().reset_index()]: one row per key, keys
    ascending; [mean] skips missing values, and a group without any value
    gives NaN. A group holding a text rating raises a [TypeError] (pandas
    2): [None]. *)
Definition groupby_mean (rows : list (list Z * cell)) : option (list (list Z * option Q)) :=
  if existsb (fun p => is_text (snd p)) rows then None else
  Some (map (fun k => (k, mean (rating_values (map snd (filter (fun p => list_Z_eqb (fst p) k) rows)))))
            (sort_by lex_le (nodup (list_eq_dec Z.eq_dec) (map fst rows)))).

(** [.dt.quarter]. *)
Definition quarter_of (month : Z) : Z := ((month - 1) / 3 + 1)%Z.

(** [average_rating_overtime] without the figure: one bar trace per quarter
    1..4, each a list of (year, average rating) bars. *)
Definition average_rating_overtime (df : list review)
  : option (list (Z * list (Z * option Q))) :=
  match dt_rows (fun t => [ts_year t; quarter_of (ts_month t)]) df with
  | None => None
  | Some rows =>
      match groupby_mean rows with
      | None => None
      | Some avg_rating =>
          Some (map (fun quarter =>
                       (quarter,
                        map (fun '(k, m) => (hd 0%Z k, m))
                            (filter (fun '(k, _) => (nth 1 k 0 =? quarter)%Z) avg_rating)))
                    [1; 2; 3; 4]%Z)
      end
  end.

(** [strftime("%b %Y")]. *)
Definition month_abbr (m : Z) : string :=
  nth (Z.to_nat (m - 1)) ["Jan"; "Feb"; "Mar"; "Apr"; "May"; "Jun";
                          "Jul"; "Aug"; "Sep"; "Oct"; "Nov"; "Dec"] "".

Definition month_year_label (year month : Z) : string :=
  month_abbr month ++ " " ++ zero_pad 4 (digits year).

(** [f'{year}'] of a value of the [year] column: [.dt.year] gives a float
    column when some [datetime] is NaT, and a float prints with [.0]. *)
Definition year_label (has_nat : bool) (year : Z) : string :=
  if has_nat then digits year ++ ".0" else digits year.

Definition is_nat (c : dtcell) : bool :=
  match c with DNaT => true | _ => false end.

(** [average_rating_wrt_month_year] without the figure. The groups are
    keyed by [year, month_num]; [month_year] is a function of them. One
    trace per year, in [sorted] order, named after the year, with its
    (month-year label, average rating) bars ordered by month. *)
Definition average_rating_wrt_month_year (df : list review)
  : option (list (string * list (string * option Q))) :=
  match dt_rows (fun t => [ts_year t; ts_month t]) df with
  | None => None
  | Some rows =>
      match groupby_mean rows with
      | None => None
      | Some avg_rating =>
          let has_nat := existsb (fun r => is_nat (datetime r)) df in
          let years := sort_by Z.leb (nodup Z.eq_dec (map (fun '(k, _) => hd 0%Z k) avg_rating)) in
          Some (map (fun year =>
                       (year_label has_nat year,
                        map (fun '(k, m) => (month_year_label (hd 0%Z k) (nth 1 k 0%Z), m))
                            (sort_by (fun a b => (nth 1 (fst a) 0 <=? nth 1 (fst b) 0)%Z)
                                     (filter (fun '(k, _) => (hd 0%Z k =? year)%Z) avg_rating))))
                    years)
      end
  end.

(** * Proofs *)

(** ** Insertion sort: permutation, sortedness, identity on sorted input *)
Section SortByFacts.
Context {A : Type} (le : A -> A -> bool).
Hypothesis le_total : forall a b, le a b = false -> le b a = true.

Let R (a b : A) : Prop := le a b = true.

Lemma insert_by_perm (x : A) (l : list A) : Permutation (x :: l) (insert_by le x l).
Proof.
  induction l as [|y l IH]; simpl; [reflexivity|].
  destruct (le x y); [reflexivity|].
  rewrite perm_swap. constructor. exact IH.
Qed.

Lemma sort_by_perm (l : list A) : Permutation l (sort_by le l).
Proof.
  induction l as [|x l IH]; simpl; [constructor|].
  rewrite <- insert_by_perm. constructor. exact IH.
Qed.

Lemma insert_by_hdrel (x y : A) (l : list A) :
  R y x -> HdRel R y l -> HdRel R y (insert_by le x l).
Proof.
  intros Hyx Hl. destruct l as [|z l]; simpl; [constructor; exact Hyx|].
  destruct (le x z); constructor; [exact Hyx|].
  exact (HdRel_inv Hl).
Qed.

Lemma insert_by_sorted (x : A) (l : list A) :
  Sorted R l -> Sorted R (insert_by le x l).
Proof.
  induction l as [|y l IH]; intros Hs; simpl.
  - repeat constructor.
  - apply Sorted_inv in Hs as [Hs Hhd].
    case_eq (le x y); intros Hxy.
    + constructor; [constructor; assumption | constructor; exact Hxy].
    + constructor; [exact (IH Hs)|].
      apply insert_by_hdrel; [apply le_total; exact Hxy | exact Hhd].
Qed.

Lemma sort_by_sorted (l : list A) : Sorted R (sort_by le l).
Proof.
  induction l as [|x l IH]; simpl; [constructor|].
  apply insert_by_sorted. exact IH.
Qed.

Lemma sort_by_id (l : list A) : Sorted R l -> sort_by le l = l.
Proof.
  induction l as [|x l IH]; intros Hs; simpl; [reflexivity|].
  apply Sorted_inv in Hs as [Hs Hhd].
  rewrite (IH Hs).
  destruct l as [|y l]; simpl; [reflexivity|].
  rewrite (HdRel_inv Hhd). reflexivity.
Qed.

End SortByFacts.

(** ** [map_opt] *)

Lemma map_opt_none_in {A B} (f : A -> option B) (l : list A) (x : A) :
  In x l -> f x = None -> map_opt f l = None.
Proof.
  induction l as [|y l IH]; simpl; [contradiction|].
  intros [<- | Hin] Hfx; [rewrite Hfx; reflexivity|].
  destruct (f y); [|reflexivity]. rewrite (IH Hin Hfx). reflexivity.
Qed.

Lemma map_opt_some_in {A B} (f : A -> option B) (l : list A) (ys : list B) :
  map_opt f l = Some ys -> forall y, In y ys -> exists x, In x l /\ f x = Some y.
Proof.
  revert ys; induction l as [|x l IH]; simpl; intros ys H y Hy.
  - inversion H; subst; contradiction.
  - destruct (f x) as [z|] eqn:Hfx; [|discriminate].
    destruct (map_opt f l) as [zs|] eqn:Hl; [|discriminate].
    inversion H; subst. destruct Hy as [<- | Hy].
    + exists x. split; [left; reflexivity | exact Hfx].
    + destruct (IH zs eq_refl y Hy) as (x' & Hx' & Hf).
      exists x'. split; [right; exact Hx' | exact Hf].
Qed.


Lemma map_opt_Forall2 {A B} (f : A -> option B) (l : list A) (ys : list B) :
  map_opt f l = Some ys -> Forall2 (fun x y => f x = Some y) l ys.
Proof.
  revert ys; induction l as [|x l IH]; simpl; intros ys H.
  - inversion H; constructor.
  - destruct (f x) as [z|] eqn:Hfx; [|discriminate].
    destruct (map_opt f l) as [zs|] eqn:Hl; [|discriminate].
    inversion H; subst. constructor; [exact Hfx | exact (IH zs eq_refl)].
Qed.

Lemma map_opt_none_ex {A B} (f : A -> option B) (l : list A) :
  map_opt f l = None -> exists x, In x l /\ f x = None.
Proof.
  induction l as [|x l IH]; simpl; intros H; [discriminate|].
  destruct (f x) as [z|] eqn:Hfx.
  - destruct (map_opt f l) eqn:Hl; [discriminate|].
    destruct (IH eq_refl) as (y & Hy & Hf). exists y. split; [right; exact Hy | exact Hf].
  - exists x. split; [left; reflexivity | exact Hfx].
Qed.

(** ** Python helpers *)

Lemma split_go_not_nil (sr : list ascii) (s : string) (cur : list ascii) :
  Py.split_go sr s cur <> [].
Proof.
  revert cur; induction s as [|c s IH]; intros cur; simpl; [discriminate|].
  destruct (Py.prefixb sr (c :: cur)); [discriminate | apply IH].
Qed.

Lemma getitem_last {A} (l : list A) (d : A) :
  l <> [] -> Py.getitem l (-1) = Some (last l d).
Proof.
  intros Hne. unfold Py.getitem. simpl.
  destruct l as [|x l] using rev_ind; [contradiction|].
  rewrite length_app. simpl.
  replace (Z.of_nat (length l + 1) + -1)%Z with (Z.of_nat (length l)) by lia.
  replace (Z.of_nat (length l) <? 0)%Z with false by (symmetry; apply Z.ltb_ge; lia).
  rewrite Nat2Z.id, nth_error_app2, Nat.sub_diag by lia. simpl.
  rewrite last_last. reflexivity.
Qed.

Lemma getitem_second_to_last {A} (l : list A) (d : A) :
  (2 <= length l)%nat -> Py.getitem l (-2) = Some (nth (length l - 2) l d).
Proof.
  intros Hlen. unfold Py.getitem. simpl.
  replace (Z.of_nat (length l) + -2)%Z with (Z.of_nat (length l - 2)) by lia.
  replace (Z.of_nat (length l - 2) <? 0)%Z with false by (symmetry; apply Z.ltb_ge; lia).
  rewrite Nat2Z.id. apply nth_error_nth'. lia.
Qed.

Lemma getitem_second_to_last_short {A} (l : list A) :
  (length l < 2)%nat -> Py.getitem l (-2) = None.
Proof.
  intros Hlen. unfold Py.getitem. simpl.
  replace (Z.of_nat (length l) + -2 <? 0)%Z with true by (symmetry; apply Z.ltb_lt; lia).
  reflexivity.
Qed.

(** ** City extraction *)

Lemma city_of_segments (addr : string) :
  (2 <= length (Py.split addr ", "))%nat ->
  city_of addr =
  Some (last (Py.split (nth (length (Py.split addr ", ") - 2) (Py.split addr ", ") "") " ") "").
Proof.
  intros H. unfold city_of.
  rewrite (getitem_second_to_last _ "" H).
  apply getitem_last. apply split_go_not_nil.
Qed.

Lemma city_of_short (addr : string) :
  (length (Py.split addr ", ") < 2)%nat -> city_of addr = None.
Proof.
  intros H. unfold city_of. rewrite (getitem_second_to_last_short _ H). reflexivity.
Qed.

(** C1 (amended). For every address whose split on [", "] has at least two
    segments, the derived city is the last element of the split on a single
    space [" "] of the second-to-last segment, and every row of a normalized
    table carries that city. The address "Main St 5, 3000 Bern" gives the
    city "5"; "Main St 5, 3000 Bern, Switzerland" gives "Bern". *)
Theorem city_second_to_last_segment :
  (forall addr : string,
     (2 <= length (Py.split addr ", "))%nat ->
     city_of addr =
     Some (last (Py.split (nth (length (Py.split addr ", ") - 2)
                              (Py.split addr ", ") "") " ") "")) /\
  (forall parse_number isdigit tbl out r,
     pre_process_listings_data parse_number isdigit tbl = Some out -> In r out ->
     city r = city_of (address r)) /\
  city_of "Main St 5, 3000 Bern" = Some "5" /\
  city_of "Main St 5, 3000 Bern, Switzerland" = Some "Bern".
Proof.
  split; [exact city_of_segments|].
  split; [|split; reflexivity].
  intros p isd tbl out r H Hin. unfold pre_process_listings_data in H.
  destruct (map_opt (process_listing_row p isd) tbl) as [rows|] eqn:Hm; [|discriminate].
  inversion H; subst out.
  apply (Permutation_in _ (Permutation_sym (sort_by_perm listing_le rows))) in Hin.
  destruct (map_opt_some_in _ _ _ Hm r Hin) as (x & _ & Hx).
  unfold process_listing_row in Hx.
  destruct (city_of (address x)) eqn:Hc; [|discriminate].
  inversion Hx; subst r. simpl. symmetry. exact Hc.
Qed.

(** C1 (counterexample). The spec's scenario fails: for the address
    "Main St 5, 3000 Bern" the derived city is "5", not "Bern". *)
Lemma city_scenario_counterexample :
  city_of "Main St 5, 3000 Bern" <> Some "Bern".
Proof. vm_compute. discriminate. Qed.

(** C7 (amended). For an address with fewer than two [", "]-separated
    segments, deriving the city raises an index error (no fallback label is
    supplied), and the Listings Normalizer fails on every table containing a
    row with that address. *)
Theorem short_address_raises (addr : string) :
  (length (Py.split addr ", ") < 2)%nat ->
  city_of addr = None /\
  (forall parse_number isdigit tbl r,
     In r tbl -> address r = addr -> pre_process_listings_data parse_number isdigit tbl = None).
Proof.
  intros H. split; [exact (city_of_short addr H)|].
  intros p isd tbl r Hin Haddr. unfold pre_process_listings_data.
  rewrite (map_opt_none_in (process_listing_row p isd) tbl r Hin); [reflexivity|].
  unfold process_listing_row. rewrite Haddr, (city_of_short addr H). reflexivity.
Qed.

Definition bern_listing : listing :=
  mkListing (CNum 1) "Apotheke" "Bern" (code_points "031 000 00 00") (CNum 0) (CNum 0)
            (CNum 4) (CNum 10) None None None None.

Lemma short_address_raises_witness :
  (length (Py.split "Bern" ", ") < 2)%nat /\ city_of "Bern" = None /\
  pre_process_listings_data (fun _ => None) ascii_isdigit [bern_listing] = None.
Proof.
  split; [vm_compute; lia|].
  destruct (short_address_raises "Bern") as [Hc Ht]; [vm_compute; lia|].
  split; [exact Hc|].
  apply (Ht _ _ _ bern_listing); [left; reflexivity | reflexivity].
Defined.

(** C7 (counterexample). The address "Bern" has a single segment: deriving
    its city raises (no fallback label), and normalizing a table with this
    row raises as a whole. *)
Lemma short_address_counterexample :
  city_of "Bern" = None /\
  pre_process_listings_data (fun _ => None) ascii_isdigit [bern_listing] = None.
Proof. split; vm_compute; reflexivity. Qed.

(** ** Review-count buckets *)

Lemma qle_bool_inject_Z (k n : Z) : Qle_bool (inject_Z k) (inject_Z n) = (k <=? n)%Z.
Proof. unfold Qle_bool, inject_Z. simpl. rewrite !Z.mul_1_r. reflexivity. Qed.

Lemma marker_color_Z (n : Z) :
  marker_color (inject_Z n) =
  if (100 <=? n)%Z then "green"
  else if (50 <=? n)%Z then "orange"
  else if (25 <=? n)%Z then "lightgray"
  else "red".
Proof.
  unfold marker_color.
  rewrite <- (qle_bool_inject_Z 100), <- (qle_bool_inject_Z 50), <- (qle_bool_inject_Z 25).
  reflexivity.
Qed.

Ltac bucket_cases :=
  repeat match goal with
         | |- context [Z.leb ?a ?b] => destruct (Z.leb_spec a b)
         | |- context [Z.ltb ?a ?b] => destruct (Z.ltb_spec a b)
         end; simpl;
  repeat split; intros; try lia; try discriminate; try reflexivity.

(** C5 (amended). For every integer [totalReviews] [n] (in particular every
    [n >= 0]) each bucket function returns exactly one label:
    markerColor is "green" iff [n >= 100], "orange" iff [50 <= n < 100],
    "lightgray" iff [25 <= n < 50], "red" otherwise; adjustedReview is
    "More than 200" iff [n >= 200], "100-200" iff [100 < n < 200] (so [200]
    itself is "More than 200"), "50 to 100" iff [50 < n <= 100], "Up-to 50"
    otherwise. For [n = 75]: "50 to 100" and "orange". *)
Theorem review_count_buckets :
  (forall n : Z,
     (marker_color (inject_Z n) = "green" <-> (100 <= n)%Z) /\
     (marker_color (inject_Z n) = "orange" <-> (50 <= n < 100)%Z) /\
     (marker_color (inject_Z n) = "lightgray" <-> (25 <= n < 50)%Z) /\
     (marker_color (inject_Z n) = "red" <-> (n < 25)%Z) /\
     (adjusted_reviews n = "More than 200" <-> (200 <= n)%Z) /\
     (adjusted_reviews n = "100-200" <-> (100 < n < 200)%Z) /\
     (adjusted_reviews n = "50 to 100" <-> (50 < n <= 100)%Z) /\
     (adjusted_reviews n = "Up-to 50" <-> (n <= 50)%Z)) /\
  adjusted_reviews 75 = "50 to 100" /\ marker_color (inject_Z 75) = "orange".
Proof.
  split; [|split; reflexivity].
  intros n. rewrite marker_color_Z. unfold adjusted_reviews.
  bucket_cases.
Qed.

(** C5 (counterexample). [n = 200] satisfies [100 < n <= 200], yet its
    adjustedReview is "More than 200", not "100-200". *)
Lemma adjusted_review_200_counterexample :
  (100 < 200 <= 200)%Z /\ adjusted_reviews 200 = "More than 200" /\
  adjusted_reviews 200 <> "100-200".
Proof. split; [lia|]. split; [reflexivity|]. vm_compute. discriminate. Qed.

(** ** Star filter labels *)

Lemma get_star_ratings_acc (l : list string) (acc : list Z) :
  fold_left (fun int_rating_list star => app int_rating_list [star_value star]) l acc
  = app acc (map star_value l).
Proof.
  revert acc; induction l as [|s l IH]; intros acc; simpl.
  - rewrite app_nil_r. reflexivity.
  - rewrite IH, <- app_assoc. reflexivity.
Qed.

Lemma get_star_ratings_map (l : list string) : get_star_ratings l = map star_value l.
Proof. unfold get_star_ratings. rewrite get_star_ratings_acc. reflexivity. Qed.

(** C10. For every list of labels, [get_star_ratings] returns a list of the
    same length whose [i]-th entry is the value of the [i]-th label:
    "⭐ 5 😊" gives 5, "⭐ 4 🙂" gives 4, "⭐ 3 😕" gives 3, "⭐ 1 😑" gives 2,
    and every other label, the UI's "⭐ 2 😒" included, gives 1. *)
Theorem star_labels_mapping :
  forall rating_list : list string,
    length (get_star_ratings rating_list) = length rating_list /\
    (forall i star, nth_error rating_list i = Some star ->
                    nth_error (get_star_ratings rating_list) i = Some (star_value star)) /\
    star_value "⭐ 5 😊" = 5%Z /\ star_value "⭐ 4 🙂" = 4%Z /\
    star_value "⭐ 3 😕" = 3%Z /\ star_value "⭐ 1 😑" = 2%Z /\
    star_value "⭐ 2 😒" = 1%Z /\
    (forall star, ~ In star ["⭐ 5 😊"; "⭐ 4 🙂"; "⭐ 3 😕"; "⭐ 1 😑"] ->
                  star_value star = 1%Z).
Proof.
  intros l. rewrite get_star_ratings_map.
  split; [apply length_map|].
  split; [intros i s H; rewrite nth_error_map, H; reflexivity|].
  do 5 (split; [reflexivity|]).
  intros s Hs. unfold star_value.
  destruct (String.eqb_spec s "⭐ 5 😊"); [subst; exfalso; apply Hs; simpl; tauto|].
  destruct (String.eqb_spec s "⭐ 4 🙂"); [subst; exfalso; apply Hs; simpl; tauto|].
  destruct (String.eqb_spec s "⭐ 3 😕"); [subst; exfalso; apply Hs; simpl; tauto|].
  destruct (String.eqb_spec s "⭐ 1 😑"); [subst; exfalso; apply Hs; simpl; tauto|].
  reflexivity.
Qed.

(** ** Sentiment fallback *)

(** C2 (evaluation at the failing input). When the language is not
    supported the score follows the fallback table; but for an empty text
    classified as "en" the English analyzer's polarity of "" is returned
    whatever the rating, so no analyzer gives both rating 5 and rating 1
    their fallback scores there. *)
Theorem sentiment_empty_text_uses_analyzer :
  (forall an text lang rating,
     str_in lang supported_languages = false ->
     calculate_sentiment_score an text lang rating = spec_fallback_score rating) /\
  (forall an rating,
     calculate_sentiment_score an "" "en" rating = Some (polarity_en an "")) /\
  (forall an,
     ~ (calculate_sentiment_score an "" "en" 5 = spec_fallback_score 5 /\
        calculate_sentiment_score an "" "en" 1 = spec_fallback_score 1)).
Proof.
  split; [|split].
  - intros an t lang r H. unfold calculate_sentiment_score. rewrite H. simpl.
    rewrite orb_true_r. reflexivity.
  - intros an r. reflexivity.
  - intros an [H5 H1]. vm_compute in H5, H1. rewrite H5 in H1.
    injection H1 as Hq. discriminate Hq.
Qed.

(** ** KPIs *)

Lemma nunique_zero (l : list Z) : nunique l = 0%nat <-> l = [].
Proof.
  unfold nunique. split; [|intros ->; reflexivity].
  destruct l as [|x l]; intros H; [reflexivity|].
  assert (Hin : In x (nodup Z.eq_dec (x :: l))) by (apply nodup_In; left; reflexivity).
  apply length_zero_iff_nil in H. rewrite H in Hin. contradiction.
Qed.

Lemma cell_mean_no_text (cs : list cell) :
  (forall c, In c cs -> is_text c = false) -> cell_mean cs = Some (mean (rating_values cs)).
Proof.
  intros H. unfold cell_mean. destruct (existsb is_text cs) eqn:E; [|reflexivity].
  apply existsb_exists in E as (c & Hc & Ht). rewrite (H c Hc) in Ht. discriminate.
Qed.

Lemma dt_years_timestamps (df : list review) :
  (forall r, In r df -> exists t, datetime r = DTimestamp t) ->
  exists ys, map_opt (fun r => dt_year (datetime r)) df = Some ys /\
             dropna ys = timestamp_years df.
Proof.
  induction df as [|r df IH]; intros H; simpl; [exists []; split; reflexivity|].
  destruct (H r (or_introl eq_refl)) as (t & Ht).
  destruct IH as (ys & Hys & Hd); [intros x Hx; apply H; right; exact Hx|].
  rewrite Ht, Hys. exists (Some (ts_year t) :: ys). split; [reflexivity|].
  simpl. rewrite Hd. reflexivity.
Qed.

Lemma timestamp_years_length (df : list review) :
  (forall r, In r df -> exists t, datetime r = DTimestamp t) ->
  length (timestamp_years df) = length df.
Proof.
  induction df as [|r df IH]; intros H; simpl; [reflexivity|].
  destruct (H r (or_introl eq_refl)) as (t & Ht). rewrite Ht. simpl.
  rewrite IH; [reflexivity|]. intros x Hx. apply H. right. exact Hx.
Qed.

(** C3 (amended). Take a filtered review subset: its rows hold timestamps
    and ratings that are not texts, as [filter_reviews_data] returns them
    from the normalized reviews table. It spans zero distinct years exactly
    when it is empty; [calculate_kpis] on the empty subset raises
    [ZeroDivisionError] (there is no guard). On a non-empty subset it does
    not raise, and the yearly rate is [total_reviews / distinct_year_count]. *)
Theorem yearly_rate_unguarded :
  forall (whole : nat) (filtered_data : list review),
    (forall r, In r filtered_data ->
       (exists t, datetime r = DTimestamp t) /\ is_text (rating r) = false) ->
    (nunique (timestamp_years filtered_data) = 0%nat <-> filtered_data = []) /\
    (filtered_data = [] -> calculate_kpis whole filtered_data = inl ZeroDivisionError) /\
    (filtered_data <> [] ->
       exists k, calculate_kpis whole filtered_data = inr k /\
                 total_reviews k = length filtered_data /\
                 yearly_reviews_rate_percentage k =
                 (inject_Z (Z.of_nat (length filtered_data))
                  / inject_Z (Z.of_nat (nunique (timestamp_years filtered_data))))%Q).
Proof.
  intros whole l H.
  assert (Hts : forall r, In r l -> exists t, datetime r = DTimestamp t)
    by (intros r Hr; exact (proj1 (H r Hr))).
  destruct (dt_years_timestamps l Hts) as (ys & Hys & Hd).
  assert (Hz : nunique (timestamp_years l) = 0%nat <-> l = []).
  { rewrite nunique_zero. split.
    - intros H0. apply length_zero_iff_nil.
      rewrite <- (timestamp_years_length l Hts), H0. reflexivity.
    - intros ->. reflexivity. }
  split; [exact Hz|]. split.
  - intros ->. reflexivity.
  - intros Hne. unfold calculate_kpis.
    rewrite cell_mean_no_text
      by (intros c Hc; apply in_map_iff in Hc as (r & <- & Hr); exact (proj2 (H r Hr))).
    rewrite Hys, Hd.
    destruct (Nat.eqb_spec (nunique (timestamp_years l)) 0) as [H0|H0].
    + apply Hz in H0. contradiction.
    + eexists. split; [reflexivity|]. split; reflexivity.
Qed.

Lemma yearly_rate_unguarded_witness :
  (forall r, In r [shared_review_example] ->
     (exists t, datetime r = DTimestamp t) /\ is_text (rating r) = false) /\
  (nunique (timestamp_years [shared_review_example]) = 0%nat <-> [shared_review_example] = []).
Proof.
  assert (H : forall r, In r [shared_review_example] ->
                (exists t, datetime r = DTimestamp t) /\ is_text (rating r) = false).
  { intros r [<- | []]. split; [eexists; reflexivity | reflexivity]. }
  split; [exact H|]. exact (proj1 (yearly_rate_unguarded 1 _ H)).
Defined.

(** C3 (counterexample). On the empty subset the yearly rate raises a
    division error instead of reporting "no data". *)
Lemma yearly_rate_empty_counterexample :
  calculate_kpis 3 [] = inl ZeroDivisionError.
Proof. reflexivity. Qed.

(** ** Ordering of the normalized listings *)

Lemma qle_bool_total (a b : Q) : Qle_bool a b = false -> Qle_bool b a = true.
Proof.
  intros H. apply Qle_bool_iff.
  destruct (Qlt_le_dec a b) as [Hlt|Hle]; [|exact Hle].
  apply Qlt_le_weak in Hlt. apply Qle_bool_iff in Hlt. congruence.
Qed.

Lemma listing_le_total (a b : listing) : listing_le a b = false -> listing_le b a = true.
Proof. unfold listing_le. apply qle_bool_total. Qed.

Lemma pre_process_listings_sorted_perm (parse_number : string -> option Q)
  (isdigit : N -> bool) (tbl out : list listing) :
  pre_process_listings_data parse_number isdigit tbl = Some out ->
  exists rows, map_opt (process_listing_row parse_number isdigit) tbl = Some rows /\
               Permutation rows out /\
               Sorted (fun a b => listing_le a b = true) out.
Proof.
  unfold pre_process_listings_data. intros H.
  destruct (map_opt (process_listing_row parse_number isdigit) tbl) as [rows|]; [|discriminate].
  inversion H; subst out. exists rows. split; [reflexivity|]. split.
  - apply sort_by_perm.
  - apply sort_by_sorted. exact listing_le_total.
Qed.

(** C4 (amended). The Listings Normalizer derives no [rank] column: its
    output is a permutation of the processed rows sorted ascending by
    [totalReviews], each of which holds an integer. *)
Theorem listings_sorted_by_total_reviews (parse_number : string -> option Q)
  (isdigit : N -> bool) (tbl out : list listing) :
  pre_process_listings_data parse_number isdigit tbl = Some out ->
  (exists rows, map_opt (process_listing_row parse_number isdigit) tbl = Some rows /\
                Permutation rows out) /\
  Sorted (fun a b => Qle_bool (num (totalReviews a)) (num (totalReviews b)) = true) out /\
  (forall r, In r out -> exists n : Z, totalReviews r = CNum (inject_Z n)).
Proof.
  intros H.
  destruct (pre_process_listings_sorted_perm parse_number isdigit tbl out H)
    as (rows & Hm & Hp & Hs).
  split; [exists rows; split; assumption|]. split; [exact Hs|].
  intros r Hin. apply (Permutation_in _ (Permutation_sym Hp)) in Hin.
  destruct (map_opt_some_in _ _ _ Hm r Hin) as (x & _ & Hx).
  unfold process_listing_row in Hx. destruct (city_of (address x)); [|discriminate].
  inversion Hx; subst r. eexists. reflexivity.
Qed.

Lemma listings_sorted_by_total_reviews_witness :
  pre_process_listings_data (fun _ => None) ascii_isdigit rank_example_table = Some rank_example_output /\
  Sorted (fun a b => Qle_bool (num (totalReviews a)) (num (totalReviews b)) = true)
         rank_example_output.
Proof.
  assert (H : pre_process_listings_data (fun _ => None) ascii_isdigit rank_example_table
              = Some rank_example_output) by (vm_compute; reflexivity).
  split; [exact H|].
  exact (proj1 (proj2 (listings_sorted_by_total_reviews _ _ _ _ H))).
Defined.

(** C4 (counterexample). On a two-row table the normalized output is not
    ordered by the spec's composite rank: the first row has rank 4 and the
    second rank 2. *)
Lemma rank_order_counterexample :
  pre_process_listings_data (fun _ => None) ascii_isdigit rank_example_table = Some rank_example_output /\
  map (spec_rank rank_example_output) rank_example_output = [4%nat; 2%nat] /\
  ~ Sorted Nat.le (map (spec_rank rank_example_output) rank_example_output).
Proof.
  assert (Hm : map (spec_rank rank_example_output) rank_example_output = [4%nat; 2%nat])
    by (vm_compute; reflexivity).
  split; [vm_compute; reflexivity|]. split; [exact Hm|].
  rewrite Hm. intros Hs. apply Sorted_inv in Hs as [_ Hhd].
  apply HdRel_inv in Hhd. lia.
Qed.

(** ** Idempotence of the normalizers *)


Lemma quot_ge_iff (k n d : Z) :
  (0 < k)%Z -> (0 < d)%Z -> (k <=? Z.quot n d)%Z = (k * d <=? n * 1)%Z.
Proof.
  intros Hk Hd. rewrite Z.mul_1_r.
  destruct (Z.le_gt_cases 0 n) as [Hn|Hn].
  - rewrite Z.quot_div_nonneg by lia.
    pose proof (Z.div_mod n d ltac:(lia)) as Hdm.
    pose proof (Z.mod_pos_bound n d Hd) as Hb.
    destruct (Z.leb_spec k (n / d)); destruct (Z.leb_spec (k * d) n); nia.
  - assert (Hq : (0 <= Z.quot (- n) d)%Z) by (apply Z.quot_pos; lia).
    rewrite Z.quot_opp_l in Hq by lia.
    destruct (Z.leb_spec k (Z.quot n d)); destruct (Z.leb_spec (k * d) n); nia.
Qed.

Lemma qle_bool_trunc (k : Z) (q : Q) :
  (0 < k)%Z -> Qle_bool (Qmake k 1) (inject_Z (Py.trunc q)) = Qle_bool (Qmake k 1) q.
Proof.
  intros Hk. destruct q as [n d]. unfold Qle_bool, Py.trunc, inject_Z. simpl.
  rewrite !Z.mul_1_r. rewrite <- (Z.mul_1_r n) at 2.
  apply quot_ge_iff; lia.
Qed.

Lemma marker_color_trunc (q : Q) : marker_color (inject_Z (Py.trunc q)) = marker_color q.
Proof.
  unfold marker_color. rewrite !qle_bool_trunc by lia. reflexivity.
Qed.



Lemma in_int64_astype (q : Q) : Py.in_int64 (Py.astype_int64 q) = true.
Proof.
  unfold Py.astype_int64. destruct (Py.in_int64 (Py.trunc q)) eqn:E; [exact E | reflexivity].
Qed.





Lemma lex_le_total (a b : list Z) : lex_le a b = false -> lex_le b a = true.
Proof.
  revert b; induction a as [|x a IH]; intros b H; simpl in H; [discriminate|].
  destruct b as [|y b]; simpl; [reflexivity|].
  destruct (Z.ltb_spec x y); [discriminate|].
  destruct (Z.eqb_spec x y) as [->|Hne]; simpl in H.
  - rewrite Z.ltb_irrefl, Z.eqb_refl. simpl. apply IH. exact H.
  - apply orb_true_intro. left. apply Z.ltb_lt. lia.
Qed.

Lemma review_le_total (a b : review) : review_le a b = false -> review_le b a = true.
Proof.
  unfold review_le. destruct (datetime a), (datetime b); try discriminate.
  apply lex_le_total.
Qed.





(** ** The views and the shared tables *)

(** C6 (evaluation at the failing input). The map view and the list view's
    [filter_data] return the store unchanged, but the reviews analysis
    replaces the [datetime] column of the shared reviews table by dates
    (the time of day is lost), after which a second run of the same view
    raises. *)
Theorem reviews_analysis_mutates_shared_reviews :
  (forall name_sel address_sel city_sel st,
     fst (map_view name_sel address_sel city_sel st) = st) /\
  (forall stars reviews nm cities st,
     fst (filter_data stars reviews nm cities st) = st) /\
  option_map fst (reviews_analysis "Apotheke A" period_start period_end shared_state_example)
    = Some shared_state_after_analysis /\
  shared_state_after_analysis <> shared_state_example /\
  map datetime (reviews_data shared_state_after_analysis) = [DDate (mkDate 2023 5 1)] /\
  reviews_analysis "Apotheke A" period_start period_end shared_state_after_analysis = None.
Proof.
  split; [reflexivity|]. split; [reflexivity|].
  split; [vm_compute; reflexivity|].
  split; [|split; vm_compute; reflexivity].
  vm_compute. intros H. inversion H.
Qed.

(** ** Top performers *)

Lemma fval_ge_total (a b : fval) : fval_ge a b = false -> fval_ge b a = true.
Proof.
  unfold fval_ge. destruct a, b; simpl; try discriminate; try reflexivity.
  apply qle_bool_total.
Qed.

Lemma fval_ge_trans (a b c : fval) :
  fval_ge a b = true -> fval_ge b c = true -> fval_ge a c = true.
Proof.
  unfold fval_ge. destruct a, b, c; simpl; try discriminate; try reflexivity.
  rewrite !Qle_bool_iff. intros H1 H2. exact (Qle_trans _ _ _ H2 H1).
Qed.

Lemma top_le_total (a b : top_place) : top_le a b = false -> top_le b a = true.
Proof. apply fval_ge_total. Qed.

Lemma strongly_sorted_app {A} (R : A -> A -> Prop) (a b : list A) :
  StronglySorted R (a ++ b) -> forall x y, In x a -> In y b -> R x y.
Proof.
  induction a as [|z a IH]; simpl; intros Hs x y Hx Hy; [contradiction|].
  apply StronglySorted_inv in Hs as [Hs Hall].
  destruct Hx as [<- | Hx].
  - rewrite Forall_forall in Hall. apply Hall. apply in_or_app. right. exact Hy.
  - exact (IH Hs x y Hx Hy).
Qed.

Lemma sorted_firstn {A} (R : A -> A -> Prop) (n : nat) (l : list A) :
  Sorted R l -> Sorted R (firstn n l).
Proof.
  revert l; induction n as [|n IH]; intros l Hs; simpl; [constructor|].
  destruct l as [|x l]; [constructor|].
  apply Sorted_inv in Hs as [Hs Hhd]. constructor; [exact (IH l Hs)|].
  destruct n, l; simpl; constructor. exact (HdRel_inv Hhd).
Qed.

Lemma top_candidates_spec (df : list listing) (cands : list top_place) :
  top_candidates df = Some cands ->
  exists groups,
    groupby_name (filter (fun r => negb (is_nan (averageRating r))) df) = Some groups /\
    forall t, In t cands <->
      exists thresh,
        mean (map (fun '(_, _, tot) => tot) groups) = Some thresh /\
        In (tp_name t, tp_averageRating t, tp_totalReviews t) groups /\
        (thresh <= tp_totalReviews t)%Q /\
        tp_rank t = fmul100 (fdiv (tp_averageRating t) (tp_totalReviews t)).
Proof.
  unfold top_candidates.
  destruct (groupby_name _) as [groups|]; [|discriminate].
  destruct (existsb _ _); [discriminate|].
  destruct (mean _) as [thresh|] eqn:Hm; intros H; inversion H; subst cands; clear H;
    exists groups; (split; [reflexivity|]); intros t; split.
  - intros Hin. exists thresh. split; [exact Hm|].
    apply in_map_iff in Hin as ([[n a] tot] & <- & Hin).
    apply filter_In in Hin as [Hin Hle]. simpl.
    split; [exact Hin|]. split; [apply Qle_bool_iff; exact Hle | reflexivity].
  - intros (th & Hth & Hin & Hle & Hr). rewrite Hm in Hth. injection Hth as Hth. subst th.
    apply in_map_iff. exists (tp_name t, tp_averageRating t, tp_totalReviews t).
    split; [destruct t; simpl in *; rewrite Hr; reflexivity|].
    apply filter_In. split; [exact Hin | apply Qle_bool_iff; exact Hle].
  - intros [].
  - intros (th & Hth & _). rewrite Hm in Hth. discriminate.
Qed.

(** C8 (amended). When no [averageRating] or [totalReviews] is a text (a
    text makes it raise), [top_performing_places] groups the listings by
    name (mean averageRating, summed totalReviews) and keeps exactly the
    groups whose sum is at least the mean of the sums over all groups (so a
    group with 49 reviews is dropped when that mean is 50). It sorts the
    survivors by [averageRating / totalReviews * 100] in descending order
    and keeps the first 30: [min 30 n] of the [n] survivors, in descending
    rank, none of them with a smaller rank than a survivor left out. *)
Theorem top_performers_descending (df : list listing) (cands : list top_place) :
  top_candidates df = Some cands ->
  (exists groups,
     groupby_name (filter (fun r => negb (is_nan (averageRating r))) df) = Some groups /\
     forall t, In t cands <->
       exists thresh,
         mean (map (fun '(_, _, tot) => tot) groups) = Some thresh /\
         In (tp_name t, tp_averageRating t, tp_totalReviews t) groups /\
         (thresh <= tp_totalReviews t)%Q /\
         tp_rank t = fmul100 (fdiv (tp_averageRating t) (tp_totalReviews t))) /\
  exists out, top_performing_places df = Some out /\
    length out = Nat.min 30 (length cands) /\
    (forall t, In t out -> In t cands) /\
    Sorted (fun a b => fval_ge (tp_rank a) (tp_rank b) = true) out /\
    (forall t u, In t out -> In u cands -> ~ In u out ->
       fval_ge (tp_rank t) (tp_rank u) = true).
Proof.
  intros Hc. split; [exact (top_candidates_spec df cands Hc)|].
  pose proof (sort_by_perm top_le cands) as Hp.
  pose proof (sort_by_sorted top_le top_le_total cands) as Hs.
  assert (Hss : StronglySorted (fun a b => top_le a b = true) (sort_by top_le cands)).
  { apply Sorted_StronglySorted; [|exact Hs].
    intros a b c. apply fval_ge_trans. }
  unfold top_performing_places. rewrite Hc.
  eexists. split; [reflexivity|]. split; [|split; [|split]].
  - rewrite length_firstn, <- (Permutation_length Hp). reflexivity.
  - intros t Ht. apply (Permutation_in _ (Permutation_sym Hp)).
    rewrite <- (firstn_skipn 30 (sort_by top_le cands)).
    apply in_or_app. left. exact Ht.
  - exact (sorted_firstn _ 30 _ Hs).
  - intros t u Ht Hu Hnot.
    apply (Permutation_in _ Hp) in Hu.
    rewrite <- (firstn_skipn 30 (sort_by top_le cands)) in Hu, Hss.
    apply in_app_or in Hu as [Hu|Hu]; [contradiction|].
    exact (strongly_sorted_app _ _ _ Hss t u Ht Hu).
Qed.

Lemma top_performers_descending_witness :
  top_candidates top_example_table = Some top_example_candidates /\
  exists out, top_performing_places top_example_table = Some out /\
    length out = Nat.min 30 (length top_example_candidates).
Proof.
  assert (H : top_candidates top_example_table = Some top_example_candidates)
    by (vm_compute; reflexivity).
  split; [exact H|].
  destruct (proj2 (top_performers_descending top_example_table top_example_candidates H))
    as (out & Ho & Hl & _).
  exists out. split; [exact Ho | exact Hl].
Defined.

(** C8 (counterexample). With 31 pharmacies of 10 reviews each and ratings
    1 .. 31, all survive the threshold; the pharmacy "a" has the lowest
    rank value (10) of all, the best one if a lower value were better, yet
    it is not among the 30 retained. *)
Lemma top_performers_lowest_dropped_counterexample :
  match top_candidates top_example_table, top_performing_places top_example_table with
  | Some cands, Some out =>
      length cands = 31%nat /\
      existsb (fun t => String.eqb (tp_name t) "a") cands = true /\
      forallb (fun t => fval_ge (tp_rank t) (Fin 10)) cands = true /\
      existsb (fun t => String.eqb (tp_name t) "a") out = false
  | _, _ => False
  end.
Proof. vm_compute. repeat split. Qed.

(** * Further properties of the pipeline and the views *)

Lemma pre_process_listings_row_origin (parse_number : string -> option Q)
  (isdigit : N -> bool) (tbl out : list listing) (r : listing) :
  pre_process_listings_data parse_number isdigit tbl = Some out -> In r out ->
  exists x, In x tbl /\ process_listing_row parse_number isdigit x = Some r.
Proof.
  intros H Hin.
  destruct (pre_process_listings_sorted_perm parse_number isdigit tbl out H)
    as (rows & Hm & Hp & _).
  apply (Permutation_in _ (Permutation_sym Hp)) in Hin.
  exact (map_opt_some_in _ _ _ Hm r Hin).
Qed.

Lemma marker_color_cases (q : Q) :
  In (marker_color q) ["green"; "orange"; "lightgray"; "red"].
Proof.
  unfold marker_color.
  destruct (Qle_bool 100 q); [simpl; tauto|].
  destruct (Qle_bool 50 q); [simpl; tauto|].
  destruct (Qle_bool 25 q); simpl; tauto.
Qed.

Lemma filter_all_digits (isdigit : N -> bool) (s : list N) :
  Forall (fun c => isdigit c = true) (Py.filter_digits isdigit s).
Proof.
  apply Forall_forall. intros c Hc. apply filter_In in Hc. exact (proj2 Hc).
Qed.

Lemma processed_listing_fields (parse_number : string -> option Q) (isdigit : N -> bool)
  (tbl out : list listing) :
  pre_process_listings_data parse_number isdigit tbl = Some out ->
  forall r, In r out ->
    exists lid lat lon avg (n : Z) c mc,
      listing_id r = CNum lid /\ latitude r = CNum lat /\ longitude r = CNum lon /\
      averageRating r = CNum avg /\ totalReviews r = CNum (inject_Z n) /\
      Py.in_int64 n = true /\
      markerColor r = Some mc /\ In mc ["green"; "orange"; "lightgray"; "red"] /\
      (n <> (- 2 ^ 63)%Z -> mc = marker_color (inject_Z n)) /\
      adjustedReview r = Some (adjusted_reviews n) /\
      adjustedRating r = Some (Qfloor avg) /\
      city r = Some c /\
      Forall (fun ch => isdigit ch = true) (contact r).
Proof.
  intros H r Hin.
  destruct (pre_process_listings_row_origin _ _ _ _ r H Hin) as (x & _ & Hx).
  unfold process_listing_row in Hx.
  destruct (city_of (address x)) as [c|]; [|discriminate].
  inversion Hx; subst r. clear Hx.
  do 7 eexists. simpl.
  split; [reflexivity|]. split; [reflexivity|]. split; [reflexivity|].
  split; [reflexivity|]. split; [reflexivity|].
  split; [apply in_int64_astype|].
  split; [reflexivity|]. split; [apply marker_color_cases|].
  split; [|repeat split; apply filter_all_digits].
  unfold Py.astype_int64.
  destruct (Py.in_int64 _); [|intros Hne; contradiction].
  intros _. symmetry. apply marker_color_trunc.
Qed.

(** X1. Every row of a normalized listings table has numeric columns that
    hold numbers, a [totalReviews] [n] in the int64 range (the cast of the
    float count, with [-2^63] for a count out of that range), [adjustedReview]
    equal to the bucket of [n], one of the four colors as [markerColor],
    equal to the color of [n] unless [n] is [-2^63] (the color is computed
    on the float before the cast), an [adjustedRating] equal to the floor of
    [averageRating], a city, and a contact made of digits only. *)
Theorem normalized_listing_invariants (parse_number : string -> option Q)
  (isdigit : N -> bool) (tbl out : list listing) :
  pre_process_listings_data parse_number isdigit tbl = Some out ->
  forall r, In r out ->
    exists lid lat lon avg (n : Z) c mc,
      listing_id r = CNum lid /\ latitude r = CNum lat /\ longitude r = CNum lon /\
      averageRating r = CNum avg /\ totalReviews r = CNum (inject_Z n) /\
      Py.in_int64 n = true /\
      markerColor r = Some mc /\ In mc ["green"; "orange"; "lightgray"; "red"] /\
      (n <> (- 2 ^ 63)%Z -> mc = marker_color (inject_Z n)) /\
      adjustedReview r = Some (adjusted_reviews n) /\
      adjustedRating r = Some (Qfloor avg) /\
      city r = Some c /\
      Forall (fun ch => isdigit ch = true) (contact r).
Proof. exact (processed_listing_fields parse_number isdigit tbl out). Qed.

Lemma normalized_listing_invariants_witness :
  pre_process_listings_data (fun _ => None) ascii_isdigit rank_example_table
    = Some rank_example_output /\
  forall r, In r rank_example_output ->
    exists lid lat lon avg (n : Z) c mc,
      listing_id r = CNum lid /\ latitude r = CNum lat /\ longitude r = CNum lon /\
      averageRating r = CNum avg /\ totalReviews r = CNum (inject_Z n) /\
      Py.in_int64 n = true /\
      markerColor r = Some mc /\ In mc ["green"; "orange"; "lightgray"; "red"] /\
      (n <> (- 2 ^ 63)%Z -> mc = marker_color (inject_Z n)) /\
      adjustedReview r = Some (adjusted_reviews n) /\
      adjustedRating r = Some (Qfloor avg) /\
      city r = Some c /\
      Forall (fun ch => ascii_isdigit ch = true) (contact r).
Proof.
  assert (H : pre_process_listings_data (fun _ => None) ascii_isdigit rank_example_table
              = Some rank_example_output) by (vm_compute; reflexivity).
  split; [exact H|]. exact (normalized_listing_invariants _ _ _ _ H).
Defined.

(** X2. A normalized reviews table is sorted by [datetime] ascending, and
    every row holds a parsed timestamp, its [date] string in the
    [DD-MM-YYYY] format, a text and a numeric rating. A missing raw text
    becomes the string "nan", whose body the review cards do not write. *)
Theorem normalized_review_invariants (parse_datetime : string -> option timestamp)
  (float_repr : Q -> string) (parse_number : string -> option Q) (tbl out : list review) :
  pre_process_reviews parse_datetime float_repr parse_number tbl = Some out ->
  Sorted (fun a b => review_le a b = true) out /\
  (forall r, In r out ->
     exists t s q, datetime r = DTimestamp t /\ date r = Some (strftime_dmy t) /\
                   text r = CText s /\ rating r = CNum q) /\
  (forall r0 r, In r0 tbl -> text r0 = CNaN ->
     process_review_row parse_datetime float_repr parse_number r0 = Some r ->
     text r = CText "nan" /\ review_body (text r) = None).
Proof.
  unfold pre_process_reviews. intros H.
  destruct (map_opt (process_review_row parse_datetime float_repr parse_number) tbl)
    as [rows|] eqn:Hm; [|discriminate].
  inversion H; subst out. clear H.
  split; [apply sort_by_sorted; exact review_le_total|]. split.
  - intros r Hin.
    apply (Permutation_in _ (Permutation_sym (sort_by_perm _ rows))) in Hin.
    destruct (map_opt_some_in _ _ _ Hm r Hin) as (x & _ & Hx).
    unfold process_review_row in Hx.
    destruct (to_datetime parse_datetime (datetime x)) as [t|]; [|discriminate].
    inversion Hx; subst r. do 3 eexists. repeat split.
  - intros r0 r _ Ht Hp. unfold process_review_row in Hp.
    destruct (to_datetime parse_datetime (datetime r0)); [|discriminate].
    inversion Hp; subst r. simpl. rewrite Ht. split; reflexivity.
Qed.

Lemma normalized_review_invariants_witness :
  pre_process_reviews (fun _ => None) (fun _ => "") (fun _ => None) review_example_table
    = Some (sort_by review_le
              (match map_opt (process_review_row (fun _ => None) (fun _ => "") (fun _ => None))
                             review_example_table with Some l => l | None => [] end)) /\
  Sorted (fun a b => review_le a b = true)
    (sort_by review_le
       (match map_opt (process_review_row (fun _ => None) (fun _ => "") (fun _ => None))
                      review_example_table with Some l => l | None => [] end)).
Proof.
  assert (H : pre_process_reviews (fun _ => None) (fun _ => "") (fun _ => None)
                review_example_table
              = Some (sort_by review_le
                 (match map_opt (process_review_row (fun _ => None) (fun _ => "")
                                   (fun _ => None)) review_example_table
                  with Some l => l | None => [] end))) by (vm_compute; reflexivity).
  split; [exact H|]. exact (proj1 (normalized_review_invariants _ _ _ _ _ H)).
Defined.

(** ** The map *)

Lemma map_opt_row_marker (l : list listing) :
  (forall r, In r l -> exists c, markerColor r = Some c /\
                                 In c ["green"; "orange"; "lightgray"; "red"]) ->
  exists ms, map_opt row_marker l = Some ms /\
             map mk_tooltip ms = map name l /\
             Forall (fun m => In (mk_color m) ["green"; "orange"; "lightgray"; "red"]) ms.
Proof.
  induction l as [|x l IH]; intros H; simpl.
  - exists []. repeat split. constructor.
  - destruct (H x (or_introl eq_refl)) as (c & Hc & Hin).
    destruct IH as (ms & Hms & Hn & Hf); [intros r Hr; apply H; right; exact Hr|].
    unfold row_marker at 1. rewrite Hc, Hms.
    eexists. split; [reflexivity|]. simpl. rewrite Hn. split; [reflexivity|].
    constructor; [exact Hin | exact Hf].
Qed.

(** X3. On a normalized listings table [create_map] does not raise: it
    places one marker per row, in row order, with the row's name as tooltip
    and one of the colors green, orange, lightgray or red; the map is
    centred on the mean coordinates with zoom 10, or on the fixed point
    (46.9480, 7.4474) with zoom 8 and no marker when the table is empty. *)
Theorem create_map_normalized (parse_number : string -> option Q) (isdigit : N -> bool)
  (tbl out : list listing) :
  pre_process_listings_data parse_number isdigit tbl = Some out ->
  exists m, create_map out = Some m /\
    map mk_tooltip (fm_markers m) = map name out /\
    Forall (fun mk => In (mk_color mk) ["green"; "orange"; "lightgray"; "red"]) (fm_markers m) /\
    (out = [] -> fm_location m = (46.9480, 7.4474)%Q /\ fm_zoom_start m = 8%Z) /\
    (out <> [] -> fm_zoom_start m = 10%Z /\
       fm_location m =
       (sum_q (map (fun r => num (latitude r)) out) / inject_Z (Z.of_nat (length out)),
        sum_q (map (fun r => num (longitude r)) out) / inject_Z (Z.of_nat (length out)))%Q).
Proof.
  intros H.
  destruct (map_opt_row_marker out) as (ms & Hms & Hn & Hf).
  { intros r Hin.
    destruct (processed_listing_fields _ _ _ _ H r Hin)
      as (_ & _ & _ & _ & _ & _ & mc & _ & _ & _ & _ & _ & _ & Hmc & Hmcin & _).
    eexists. split; [exact Hmc | exact Hmcin]. }
  destruct out as [|x l].
  - eexists. split; [reflexivity|]. simpl in Hms. inversion Hms; subst ms.
    simpl. split; [reflexivity|]. split; [constructor|]. split.
    + intros _. split; reflexivity.
    + intros Hne. contradiction.
  - unfold create_map. simpl mean. rewrite Hms.
    eexists. split; [reflexivity|]. simpl.
    split; [exact Hn|]. split; [exact Hf|]. split.
    + discriminate.
    + intros _. rewrite !length_map. split; reflexivity.
Qed.

Lemma create_map_normalized_witness :
  pre_process_listings_data (fun _ => None) ascii_isdigit rank_example_table = Some rank_example_output /\
  exists m, create_map rank_example_output = Some m /\
    map mk_tooltip (fm_markers m) = map name rank_example_output /\
    Forall (fun mk => In (mk_color mk) ["green"; "orange"; "lightgray"; "red"]) (fm_markers m) /\
    (rank_example_output = [] -> fm_location m = (46.9480, 7.4474)%Q /\ fm_zoom_start m = 8%Z) /\
    (rank_example_output <> [] -> fm_zoom_start m = 10%Z /\
       fm_location m =
       (sum_q (map (fun r => num (latitude r)) rank_example_output)
          / inject_Z (Z.of_nat (length rank_example_output)),
        sum_q (map (fun r => num (longitude r)) rank_example_output)
          / inject_Z (Z.of_nat (length rank_example_output)))%Q).
Proof.
  assert (H : pre_process_listings_data (fun _ => None) ascii_isdigit rank_example_table
              = Some rank_example_output) by (vm_compute; reflexivity).
  split; [exact H|]. exact (create_map_normalized _ _ _ _ H).
Defined.

(** ** The list view *)

Lemma star_in_1_5 (z : Z) : existsb (Z.eqb z) [5; 4; 3; 2; 1]%Z = true <-> (1 <= z <= 5)%Z.
Proof.
  rewrite existsb_exists. split.
  - intros (k & Hk & Heq). apply Z.eqb_eq in Heq. subst k.
    simpl in Hk. destruct Hk as [<-|[<-|[<-|[<-|[<-|[]]]]]]; lia.
  - intros Hz. exists z. split; [|apply Z.eqb_refl].
    assert (z = 5 \/ z = 4 \/ z = 3 \/ z = 2 \/ z = 1)%Z as Hc by lia.
    destruct Hc as [-> | [-> | [-> | [-> | ->]]]]; simpl; tauto.
Qed.

Lemma floor_between (q : Q) : (1 <= Qfloor q <= 5)%Z <-> (1 <= q /\ q < 6)%Q.
Proof.
  pose proof (Qfloor_le q) as Hle. pose proof (Qlt_floor q) as Hlt.
  split.
  - intros [H1 H5]. split.
    + apply (Qle_trans _ (inject_Z (Qfloor q))); [|exact Hle].
      change 1%Q with (inject_Z 1). rewrite <- Zle_Qle. exact H1.
    + apply (Qlt_le_trans _ _ _ Hlt).
      change 6%Q with (inject_Z 6). rewrite <- Zle_Qle. lia.
  - intros [H1 H6]. split.
    + change 1%Z with (Qfloor 1). apply Qfloor_resp_le. exact H1.
    + destruct (Z.le_gt_cases (Qfloor q) 5) as [H|H]; [exact H|].
      exfalso. apply (Qlt_not_le _ _ H6).
      apply (Qle_trans _ (inject_Z (Qfloor q))); [|exact Hle].
      change 6%Q with (inject_Z 6). rewrite <- Zle_Qle. lia.
Qed.

Lemma filter_all_true {A} (f : A -> bool) (l : list A) :
  (forall x, In x l -> f x = true) -> filter f l = l.
Proof.
  induction l as [|x l IH]; intros H; simpl; [reflexivity|].
  rewrite (H x (or_introl eq_refl)), IH; [reflexivity|].
  intros y Hy. apply H. right. exact Hy.
Qed.

Lemma unique_strings_in (l : list (option string)) (s : string) :
  In (Some s) l -> In s (unique_strings l).
Proof.
  intros H. unfold unique_strings. apply nodup_In. apply in_flat_map.
  exists (Some s). split; [exact H | left; reflexivity].
Qed.

Lemma isin_unique (f : listing -> option string) (l : list listing) (x : listing) (s : string) :
  In x l -> f x = Some s -> isin String.eqb (f x) (unique_strings (map f l)) = true.
Proof.
  intros Hin Hf. rewrite Hf. unfold isin. apply existsb_exists.
  exists s. split; [|apply String.eqb_refl].
  apply unique_strings_in. rewrite <- Hf. apply in_map. exact Hin.
Qed.

Lemma listing_desc_le_total (a b : listing) :
  listing_desc_le a b = false -> listing_desc_le b a = true.
Proof.
  unfold listing_desc_le.
  set (ta := num (totalReviews a)). set (tb := num (totalReviews b)).
  set (ra := num (averageRating a)). set (rb := num (averageRating b)).
  intros H. apply orb_false_iff in H as [H1 H2].
  apply negb_false_iff in H1.
  destruct (Qle_bool tb ta) eqn:Hba; simpl; [|reflexivity].
  apply Qle_bool_iff in H1, Hba.
  assert (Heq : Qeq_bool tb ta = true) by (apply Qeq_bool_iff; apply Qle_antisym; assumption).
  assert (Heq' : Qeq_bool ta tb = true) by (apply Qeq_bool_iff; apply Qle_antisym; assumption).
  rewrite Heq. rewrite Heq' in H2. simpl in H2. simpl.
  apply qle_bool_total. exact H2.
Qed.

(** X4. With no selection in any filter of the list view ("All"), the
    listed pharmacies of a normalized table are exactly those with
    [1 <= averageRating < 6]: a listing rated below 1 (a missing rating is
    filled with 0) is never listed. They are displayed once each, ordered by
    [totalReviews] and then [averageRating], both descending, and the
    "No Listed Pharmacy found!" message appears only when none is left. *)
Theorem list_view_all_filters (parse_number : string -> option Q) (isdigit : N -> bool)
  (tbl : list listing)
  (st : app_state) :
  pre_process_listings_data parse_number isdigit tbl = Some (data st) ->
  (forall r, In r (list_view_rows [] [] "All" [] st) <->
             In r (data st) /\ (1 <= num (averageRating r))%Q /\ (num (averageRating r) < 6)%Q) /\
  match display_list_view (list_view_rows [] [] "All" [] st) with
  | NoListedPharmacy => list_view_rows [] [] "All" [] st = []
  | PharmacyCards ps =>
      Permutation (list_view_rows [] [] "All" [] st) ps /\
      Sorted (fun a b => listing_desc_le a b = true) ps
  end.
Proof.
  intros H. split.
  - intros r. unfold list_view_rows, filter_data. simpl.
    rewrite (filter_all_true (fun r => isin String.eqb (city r) _)).
    2:{ intros x Hx. apply filter_In in Hx as [Hx _]. apply filter_In in Hx as [Hx _].
        destruct (processed_listing_fields _ _ _ _ H x Hx)
          as (_ & _ & _ & _ & _ & c & _ & _ & _ & _ & _ & _ & _ & _ & _ & _ & _ & _ & Hc & _).
        exact (isin_unique city _ x c Hx Hc). }
    rewrite (filter_all_true (fun r => isin String.eqb (adjustedReview r) _)).
    2:{ intros x Hx. apply filter_In in Hx as [Hx _].
        destruct (processed_listing_fields _ _ _ _ H x Hx)
          as (_ & _ & _ & _ & n & _ & _ & _ & _ & _ & _ & _ & _ & _ & _ & _ & Har & _).
        exact (isin_unique adjustedReview _ x _ Hx Har). }
    rewrite filter_In. split.
    + intros [Hin Hs]. split; [exact Hin|].
      destruct (processed_listing_fields _ _ _ _ H r Hin)
        as (_ & _ & _ & avg & _ & _ & _ & _ & _ & _ & Havg & _ & _ & _ & _ & _ & _ & Hfl & _).
      rewrite Hfl in Hs. unfold isin in Hs. apply star_in_1_5, floor_between in Hs.
      rewrite Havg. exact Hs.
    + intros [Hin Hb]. split; [exact Hin|].
      destruct (processed_listing_fields _ _ _ _ H r Hin)
        as (_ & _ & _ & avg & _ & _ & _ & _ & _ & _ & Havg & _ & _ & _ & _ & _ & _ & Hfl & _).
      rewrite Hfl. unfold isin. apply star_in_1_5, floor_between.
      rewrite Havg in Hb. exact Hb.
  - unfold display_list_view.
    pose proof (sort_by_perm listing_desc_le (list_view_rows [] [] "All" [] st)) as Hp.
    pose proof (sort_by_sorted listing_desc_le listing_desc_le_total
                  (list_view_rows [] [] "All" [] st)) as Hs.
    destruct (sort_by listing_desc_le (list_view_rows [] [] "All" [] st)) as [|y ys] eqn:E.
    + apply Permutation_nil. apply Permutation_sym. exact Hp.
    + split; [exact Hp | exact Hs].
Qed.

Lemma list_view_all_filters_witness :
  pre_process_listings_data (fun _ => None) ascii_isdigit rank_example_table
    = Some (data (mkAppState rank_example_output [] Datetime64)) /\
  list_view_rows [] [] "All" [] (mkAppState rank_example_output [] Datetime64) = rank_example_output /\
  match display_list_view (list_view_rows [] [] "All" [] (mkAppState rank_example_output [] Datetime64)) with
  | NoListedPharmacy => list_view_rows [] [] "All" [] (mkAppState rank_example_output [] Datetime64) = []
  | PharmacyCards ps =>
      Permutation (list_view_rows [] [] "All" [] (mkAppState rank_example_output [] Datetime64)) ps /\
      Sorted (fun a b => listing_desc_le a b = true) ps
  end.
Proof.
  assert (H : pre_process_listings_data (fun _ => None) ascii_isdigit rank_example_table
              = Some (data (mkAppState rank_example_output [] Datetime64))) by (vm_compute; reflexivity).
  split; [exact H|]. split; [vm_compute; reflexivity|].
  exact (proj2 (list_view_all_filters _ _ _ _ H)).
Defined.

(** ** The reviews of a pharmacy card *)

Lemma star_rating_list_range (sel : list string) (k : Z) :
  In k (star_rating_list sel) -> (1 <= k <= 5)%Z.
Proof.
  unfold star_rating_list. destruct sel as [|s sel].
  - simpl. intros [<- | [<- | [<- | [<- | [<- | []]]]]]; lia.
  - rewrite get_star_ratings_map. intros Hk. apply in_map_iff in Hk as (x & <- & _).
    unfold star_value.
    repeat match goal with |- context [if ?c then _ else _] => destruct c end; lia.
Qed.

Lemma review_desc_le_total (a b : review) :
  review_desc_le a b = false -> review_desc_le b a = true.
Proof. unfold review_desc_le. apply review_le_total. Qed.

Lemma shown_reviews_in (sel : list string) (prs : list review) (r : review) :
  In r (shown_reviews sel prs) <->
  In r prs /\ exists k, In k (star_rating_list sel) /\ (num (rating r) == inject_Z k)%Q.
Proof.
  unfold shown_reviews. split.
  - intros H. apply (Permutation_in _ (Permutation_sym (sort_by_perm _ _))) in H.
    apply filter_In in H as [Hin Hk]. split; [exact Hin|].
    apply existsb_exists in Hk as (k & Hk & Heq). exists k. split; [exact Hk|].
    apply Qeq_bool_iff. exact Heq.
  - intros [Hin (k & Hk & Heq)]. apply (Permutation_in _ (sort_by_perm _ _)).
    apply filter_In. split; [exact Hin|]. apply existsb_exists. exists k.
    split; [exact Hk|]. apply Qeq_bool_iff. exact Heq.
Qed.

(** X5. [display_pharmacy]: the expander's label counts every review of the
    pharmacy, while the cards under it show exactly the pharmacy's reviews
    whose rating equals one of the selected stars, each of which is an
    integer in 1..5: a review with another rating (a rating filled with 0,
    or a fractional one) is counted in [Reviews (n)] but never shown. The
    cards come newest first, one per shown review, and "No reviews found!"
    appears exactly when no review is left. *)
Theorem display_pharmacy_reviews (pharmacy : listing) (sel : list string) (st : app_state) :
  let prs := filter (fun r => String.eqb (place_Name r) (name pharmacy)) (reviews_data st) in
  fst (display_pharmacy pharmacy sel st) = length prs /\
  (forall r, In r (shown_reviews sel prs) <->
             In r (reviews_data st) /\ place_Name r = name pharmacy /\
             exists k, In k (star_rating_list sel) /\ (num (rating r) == inject_Z k)%Q) /\
  (forall k, In k (star_rating_list sel) -> (1 <= k <= 5)%Z) /\
  Sorted (fun a b => review_desc_le a b = true) (shown_reviews sel prs) /\
  match snd (display_pharmacy pharmacy sel st) with
  | NoReviewsFound => shown_reviews sel prs = []
  | ReviewCards cs => cs <> [] /\ length cs = length (shown_reviews sel prs) /\
                      map rc_reviewer cs = map reviewer (shown_reviews sel prs)
  end.
Proof.
  intros prs. split; [reflexivity|]. split.
  { intros r. rewrite shown_reviews_in. unfold prs. rewrite filter_In.
    split.
    - intros [[Hin Hn] Hk]. apply String.eqb_eq in Hn. tauto.
    - intros (Hin & Hn & Hk). apply String.eqb_eq in Hn. tauto. }
  split; [exact (star_rating_list_range sel)|].
  split; [exact (sort_by_sorted review_desc_le review_desc_le_total _)|].
  simpl. unfold display_reviews. fold prs.
  destruct (shown_reviews sel prs) as [|x xs]; [reflexivity|].
  split; [discriminate|]. split.
  - apply length_map.
  - rewrite map_map. reflexivity.
Qed.

(** ** The reviews analysis: [reviews_analysis] and [filter_reviews_data] *)

Lemma Forall2_in_l {A B} (P : A -> B -> Prop) (l : list A) (ys : list B) :
  Forall2 P l ys -> forall x, In x l -> exists y, In y ys /\ P x y.
Proof.
  induction 1 as [|x y l ys Hxy _ IH]; intros z Hz; [contradiction|].
  destruct Hz as [<- | Hz].
  - exists y. split; [left; reflexivity | exact Hxy].
  - destruct (IH z Hz) as (w & Hw & Hp). exists w. split; [right; exact Hw | exact Hp].
Qed.

Lemma Forall2_in_r {A B} (P : A -> B -> Prop) (l : list A) (ys : list B) :
  Forall2 P l ys -> forall y, In y ys -> exists x, In x l /\ P x y.
Proof.
  induction 1 as [|x y l ys Hxy _ IH]; intros z Hz; [contradiction|].
  destruct Hz as [<- | Hz].
  - exists x. split; [left; reflexivity | exact Hxy].
  - destruct (IH z Hz) as (w & Hw & Hp). exists w. split; [right; exact Hw | exact Hp].
Qed.

Lemma dt_date_step (r r1 : review) :
  match dt_date (datetime r) with
  | None => None
  | Some c => Some {| place_Name := place_Name r; reviewer := reviewer r;
                      text := text r; rating := rating r; datetime := c; date := date r |}
  end = Some r1 ->
  (exists t, datetime r = DTimestamp t /\
             r1 = {| place_Name := place_Name r; reviewer := reviewer r;
                     text := text r; rating := rating r;
                     datetime := DDate (date_of_timestamp t); date := date r |}) \/
  (datetime r = DNaT /\
   r1 = {| place_Name := place_Name r; reviewer := reviewer r;
           text := text r; rating := rating r; datetime := DNaT; date := date r |}).
Proof.
  destruct (datetime r) as [t| | |]; simpl; intros H; try discriminate.
  - inversion H. left. exists t. split; reflexivity.
  - inversion H. right. split; reflexivity.
Qed.

Lemma dt_date_column_datetime64 (dty : dtype) (rs rs' : list review) :
  dt_date_column dty rs = Some rs' -> dty = Datetime64.
Proof. destruct dty; [reflexivity | discriminate]. Qed.

(** X6. A successful run of the reviews analysis keeps the listings, and
    the rows it analyses are exactly the reviews of the selected pharmacy
    whose [datetime] is a timestamp (not NaT) whose calendar day lies in the
    selected period, both ends included; each comes back with its time of
    day reset to midnight and without the [date] column. The shared reviews
    table keeps its length but its [datetime] column now has [object]
    dtype, so every later run of the view raises. *)
Theorem reviews_analysis_period (pharmacy : string) (s e : date_value)
  (st st' : app_state) (res : list review) :
  reviews_analysis pharmacy s e st = Some (st', res) ->
  data st' = data st /\
  length (reviews_data st') = length (reviews_data st) /\
  (forall r, In r res <->
     exists r0 t, In r0 (reviews_data st) /\ datetime r0 = DTimestamp t /\
       place_Name r0 = pharmacy /\
       date_le s (date_of_timestamp t) = true /\ date_le (date_of_timestamp t) e = true /\
       r = {| place_Name := place_Name r0; reviewer := reviewer r0; text := text r0;
              rating := rating r0;
              datetime := DTimestamp (timestamp_of_date (date_of_timestamp t));
              date := None |}) /\
  reviews_datetime_dtype st' = Object /\
  (forall p' s' e', reviews_analysis p' s' e' st' = None).
Proof.
  unfold reviews_analysis.
  destruct (dt_date_column (reviews_datetime_dtype st) (reviews_data st)) as [rs|] eqn:Hm;
    [|discriminate].
  intros H. inversion H; subst st' res; clear H. simpl.
  pose proof (dt_date_column_datetime64 _ _ _ Hm) as Hdty.
  rewrite Hdty in Hm. simpl in Hm.
  apply map_opt_Forall2 in Hm.
  split; [reflexivity|]. split; [symmetry; exact (Forall2_length Hm)|]. split.
  - intros r. unfold filter_reviews_data. simpl. rewrite in_map_iff. split.
    + intros (r1 & <- & Hr1). apply filter_In in Hr1 as [Hr1 Hkeep].
      destruct (Forall2_in_r _ _ _ Hm r1 Hr1) as (r0 & Hr0 & Hf).
      destruct (dt_date_step r0 r1 Hf) as [(t & Ht & ->) | (_ & ->)];
        simpl in Hkeep |- *; [|discriminate].
      apply andb_prop in Hkeep as [Hkeep Hn]. apply andb_prop in Hkeep as [Hs He].
      apply String.eqb_eq in Hn.
      exists r0, t. repeat split; assumption.
    + intros (r0 & t & Hr0 & Ht & Hn & Hs & He & ->).
      destruct (Forall2_in_l _ _ _ Hm r0 Hr0) as (r1 & Hr1 & Hf).
      destruct (dt_date_step r0 r1 Hf) as [(t' & Ht' & ->) | (Hnat & _)];
        rewrite Ht in *; [|discriminate].
      inversion Ht'; subst t'.
      eexists. split; [|apply filter_In; split; [exact Hr1|]]; [reflexivity|].
      simpl. rewrite Hs, He, Hn, String.eqb_refl. reflexivity.
  - split; reflexivity.
Qed.


Lemma reviews_analysis_period_witness :
  reviews_analysis "Apotheke A" period_start period_end shared_state_example
    = Some (shared_state_after_analysis,
            [{| place_Name := "Apotheke A"; reviewer := "Reviewer";
                text := CText "Sehr gut"; rating := CNum 5;
                datetime := DTimestamp (mkTimestamp 2023 5 1 0 0 0); date := None |}]) /\
  data shared_state_after_analysis = data shared_state_example /\
  length (reviews_data shared_state_after_analysis) = length (reviews_data shared_state_example) /\
  (forall r, In r [{| place_Name := "Apotheke A"; reviewer := "Reviewer";
                      text := CText "Sehr gut"; rating := CNum 5;
                      datetime := DTimestamp (mkTimestamp 2023 5 1 0 0 0); date := None |}] <->
     exists r0 t, In r0 (reviews_data shared_state_example) /\ datetime r0 = DTimestamp t /\
       place_Name r0 = "Apotheke A" /\
       date_le period_start (date_of_timestamp t) = true /\
       date_le (date_of_timestamp t) period_end = true /\
       r = {| place_Name := place_Name r0; reviewer := reviewer r0; text := text r0;
              rating := rating r0;
              datetime := DTimestamp (timestamp_of_date (date_of_timestamp t));
              date := None |}) /\
  reviews_datetime_dtype shared_state_after_analysis = Object /\
  (forall p' s' e', reviews_analysis p' s' e' shared_state_after_analysis = None).
Proof.
  assert (H : reviews_analysis "Apotheke A" period_start period_end shared_state_example
    = Some (shared_state_after_analysis,
            [{| place_Name := "Apotheke A"; reviewer := "Reviewer";
                text := CText "Sehr gut"; rating := CNum 5;
                datetime := DTimestamp (mkTimestamp 2023 5 1 0 0 0); date := None |}]))
    by (vm_compute; reflexivity).
  split; [exact H|]. exact (reviews_analysis_period _ _ _ _ _ _ H).
Defined.

(** ** KPIs of a non-empty selection *)

Lemma nodup_length_le (l : list Z) : (length (nodup Z.eq_dec l) <= length l)%nat.
Proof.
  induction l as [|x l IH]; simpl; [lia|].
  destruct (in_dec Z.eq_dec x l); simpl; lia.
Qed.

Lemma inject_Z_of_nat_pos (n : nat) : (n <> 0)%nat -> (0 < inject_Z (Z.of_nat n))%Q.
Proof.
  intros H. change 0%Q with (inject_Z 0). rewrite <- Zlt_Qlt. lia.
Qed.

Lemma rating_values_num (df : list review) :
  (forall r, In r df -> exists q, rating r = CNum q) ->
  rating_values (map rating df) = map (fun r => num (rating r)) df.
Proof.
  unfold rating_values.
  induction df as [|r df IH]; intros H; [reflexivity|].
  destruct (H r (or_introl eq_refl)) as (q & Hq). simpl. rewrite Hq. simpl.
  rewrite IH; [reflexivity|]. intros x Hx. apply H. right. exact Hx.
Qed.

(** X8. On a non-empty selection whose rows hold timestamps and numeric
    ratings (no NaT, no missing or text rating), [calculate_kpis] does not
    raise: the number of distinct years [y] satisfies [1 <= y <= n] for the
    [n] selected reviews, so the yearly rate lies between 1 and [n]; the
    average rating is the plain mean of the ratings, and when the whole
    reviews table is not empty the rating ratio equals the sum of the
    selected ratings divided by the size of the whole table, times 100. *)
Theorem calculate_kpis_nonempty (whole : nat) (filtered_data : list review) :
  filtered_data <> [] ->
  (forall r, In r filtered_data ->
     (exists t, datetime r = DTimestamp t) /\ (exists q, rating r = CNum q)) ->
  exists k, calculate_kpis whole filtered_data = inr k /\
    total_reviews k = length filtered_data /\
    (1 <= yearly_reviews_rate_percentage k)%Q /\
    (yearly_reviews_rate_percentage k <= inject_Z (Z.of_nat (length filtered_data)))%Q /\
    average_ratings k = Some (sum_q (map (fun r => num (rating r)) filtered_data)
                              / inject_Z (Z.of_nat (length filtered_data)))%Q /\
    ((whole <> 0)%nat ->
     exists q, rating_ratio k = Some q /\
       (q == sum_q (map (fun r => num (rating r)) filtered_data)
             / inject_Z (Z.of_nat whole) * 100)%Q).
Proof.
  intros Hne H. unfold calculate_kpis.
  assert (Hts : forall r, In r filtered_data -> exists t, datetime r = DTimestamp t)
    by (intros r Hr; exact (proj1 (H r Hr))).
  destruct (dt_years_timestamps filtered_data Hts) as (ys & Hys & Hd).
  rewrite cell_mean_no_text.
  2:{ intros c Hc. apply in_map_iff in Hc as (r & <- & Hr).
      destruct (proj2 (H r Hr)) as (q & ->). reflexivity. }
  rewrite (rating_values_num filtered_data (fun r Hr => proj2 (H r Hr))).
  rewrite Hys, Hd.
  set (n := length filtered_data).
  set (y := nunique (timestamp_years filtered_data)).
  assert (Hn : (n <> 0)%nat) by (unfold n; destruct filtered_data; [contradiction | discriminate]).
  assert (Hyn : (y <= n)%nat).
  { unfold y, n, nunique. rewrite <- (timestamp_years_length filtered_data Hts).
    apply nodup_length_le. }
  assert (Hy : (y <> 0)%nat).
  { unfold y. rewrite nunique_zero. intros H0.
    apply (f_equal (@length Z)) in H0. rewrite (timestamp_years_length filtered_data Hts) in H0.
    fold n in H0. simpl in H0. contradiction. }
  destruct (Nat.eqb_spec y 0) as [|_]; [contradiction|].
  eexists. split; [reflexivity|]. simpl.
  pose proof (inject_Z_of_nat_pos n Hn) as Hnq.
  pose proof (inject_Z_of_nat_pos y Hy) as Hyq.
  split; [reflexivity|]. split; [|split; [|split]].
  - apply Qle_shift_div_l; [exact Hyq|]. rewrite Qmult_1_l.
    rewrite <- Zle_Qle. lia.
  - apply Qle_shift_div_r; [exact Hyq|].
    rewrite <- Qmult_1_r at 1. apply Qmult_le_l; [exact Hnq|].
    change 1%Q with (inject_Z 1). rewrite <- Zle_Qle. lia.
  - unfold mean. rewrite length_map. fold n.
    destruct filtered_data; [contradiction | reflexivity].
  - intros Hw. unfold mean. rewrite length_map. fold n.
    destruct filtered_data as [|r0 rs]; [contradiction|].
    destruct (Nat.eqb_spec whole 0) as [|_]; [contradiction|].
    eexists. split; [reflexivity|].
    pose proof (inject_Z_of_nat_pos whole Hw) as Hwq.
    fold n. field. split.
    + intros H0. rewrite H0 in Hwq. discriminate.
    + intros H0. rewrite H0 in Hnq. discriminate.
Qed.

Lemma calculate_kpis_nonempty_witness :
  [shared_review_example] <> [] /\
  (forall r, In r [shared_review_example] ->
     (exists t, datetime r = DTimestamp t) /\ (exists q, rating r = CNum q)) /\
  exists k, calculate_kpis 1 [shared_review_example] = inr k /\
    total_reviews k = length [shared_review_example] /\
    (1 <= yearly_reviews_rate_percentage k)%Q /\
    (yearly_reviews_rate_percentage k <= inject_Z (Z.of_nat (length [shared_review_example])))%Q /\
    average_ratings k = Some (sum_q (map (fun r => num (rating r)) [shared_review_example])
                              / inject_Z (Z.of_nat (length [shared_review_example])))%Q /\
    ((1 <> 0)%nat ->
     exists q, rating_ratio k = Some q /\
       (q == sum_q (map (fun r => num (rating r)) [shared_review_example])
             / inject_Z (Z.of_nat 1) * 100)%Q).
Proof.
  assert (H : [shared_review_example] <> []) by discriminate.
  assert (H2 : forall r, In r [shared_review_example] ->
     (exists t, datetime r = DTimestamp t) /\ (exists q, rating r = CNum q)).
  { intros r [<- | []]. split; eexists; reflexivity. }
  split; [exact H|]. split; [exact H2|]. exact (calculate_kpis_nonempty 1 _ H H2).
Defined.

(** ** Sentiment scores *)

Lemma Qeq_bool_false_neq (a b : Q) : Qeq_bool a b = false -> ~ (a == b)%Q.
Proof. intros H Heq. apply Qeq_bool_iff in Heq. congruence. Qed.

Lemma sentiment_fallback (an : analyzers) (t lang : string) (q : Q) :
  str_in lang supported_languages = false ->
  (exists k, (1 <= k <= 5)%Z /\ (q == inject_Z k)%Q /\
     exists v, calculate_sentiment_score an t lang q = Some v /\
               (v == (inject_Z k - 3) / 2)%Q) \/
  (calculate_sentiment_score an t lang q = None /\
   forall k, (1 <= k <= 5)%Z -> ~ (q == inject_Z k)%Q).
Proof.
  intros Hl. unfold calculate_sentiment_score. rewrite Hl, orb_true_r.
  destruct (Qeq_bool q 5) eqn:H5.
  { left. exists 5%Z. split; [lia|]. split; [apply Qeq_bool_iff; exact H5|].
    eexists. split; [reflexivity|]. reflexivity. }
  destruct (Qeq_bool q 4) eqn:H4.
  { left. exists 4%Z. split; [lia|]. split; [apply Qeq_bool_iff; exact H4|].
    eexists. split; [reflexivity|]. reflexivity. }
  destruct (Qeq_bool q 3) eqn:H3.
  { left. exists 3%Z. split; [lia|]. split; [apply Qeq_bool_iff; exact H3|].
    eexists. split; [reflexivity|]. reflexivity. }
  destruct (Qeq_bool q 2) eqn:H2.
  { left. exists 2%Z. split; [lia|]. split; [apply Qeq_bool_iff; exact H2|].
    eexists. split; [reflexivity|]. reflexivity. }
  destruct (Qeq_bool q 1) eqn:H1.
  { left. exists 1%Z. split; [lia|]. split; [apply Qeq_bool_iff; exact H1|].
    eexists. split; [reflexivity|]. reflexivity. }
  right. split; [reflexivity|]. intros k Hk.
  assert (k = 5 \/ k = 4 \/ k = 3 \/ k = 2 \/ k = 1)%Z as Hc by lia.
  destruct Hc as [-> | [-> | [-> | [-> | ->]]]]; apply Qeq_bool_false_neq; assumption.
Qed.

Lemma Forall2_map_l {A B} (P : A -> B -> Prop) (g : B -> A) (l : list A) (ys : list B) :
  Forall2 P l ys -> (forall x y, P x y -> g y = x) -> map g ys = l.
Proof.
  induction 1 as [|x y l ys Hxy _ IH]; intros Hg; [reflexivity|].
  simpl. rewrite (Hg x y Hxy), IH; [reflexivity | exact Hg].
Qed.

(** X9. [insert_sentiment_scores] raises on an empty selection (the
    assignment of an empty [apply]) and on a selection holding a review
    whose text is missing ([langid] refuses a float); otherwise it scores
    each review once, in order. When the three analyzers return polarities
    in [-1, 1], every score is missing or in [-1, 1]. For a language other
    than en/de/fr the score only depends on the rating: a rating [k] in
    1..5 gives [(k - 3) / 2], and any other rating (0 after [fillna], or a
    fraction) gives no score. *)
Theorem sentiment_scores_range (classify : string -> string) (an : analyzers)
  (df : list review) :
  (forall s, (-1 <= polarity_en an s <= 1)%Q) ->
  (forall s, (-1 <= polarity_de an s <= 1)%Q) ->
  (forall s, (-1 <= polarity_fr an s <= 1)%Q) ->
  (insert_sentiment_scores classify an df = None <->
     df = [] \/ exists r, In r df /\ is_text (text r) = false) /\
  forall scored, insert_sentiment_scores classify an df = Some scored ->
  map (fun x => fst (fst x)) scored = df /\
  forall r lang sc, In (r, lang, sc) scored ->
    (exists t, text r = CText t /\ lang = classify t) /\
    (sc = None \/ exists v, sc = Some v /\ (-1 <= v <= 1)%Q) /\
    (str_in lang supported_languages = false ->
     (exists k, (1 <= k <= 5)%Z /\ (num (rating r) == inject_Z k)%Q /\
        exists v, sc = Some v /\ (v == (inject_Z k - 3) / 2)%Q) \/
     (sc = None /\ forall k, (1 <= k <= 5)%Z -> ~ (num (rating r) == inject_Z k)%Q)).
Proof.
  intros Hen Hde Hfr. split.
  { unfold insert_sentiment_scores. destruct df as [|r0 df'] eqn:Edf.
    - split; [intros _; left; reflexivity | reflexivity].
    - rewrite <- Edf. split.
      + intros Hn. right. apply map_opt_none_ex in Hn as (r & Hr & Hf).
        exists r. split; [exact Hr|]. destruct (text r); [reflexivity | discriminate | reflexivity].
      + intros [Hnil | (r & Hr & Ht)]; [rewrite Edf in Hnil; discriminate|].
        apply (map_opt_none_in _ _ r Hr). destruct (text r); [reflexivity | discriminate | reflexivity]. }
  intros scored Hs.
  assert (Hf : Forall2 (fun r0 x =>
                 match text r0 with
                 | CText t => Some (r0, classify t,
                                    calculate_sentiment_score an t (classify t) (num (rating r0)))
                 | _ => None
                 end = Some x) df scored).
  { unfold insert_sentiment_scores in Hs. destruct df; [discriminate|].
    exact (map_opt_Forall2 _ _ _ Hs). }
  split.
  { apply (Forall2_map_l _ _ _ _ Hf). intros r0 x Hx.
    destruct (text r0); try discriminate. inversion Hx. reflexivity. }
  intros r lang sc Hin.
  destruct (Forall2_in_r _ _ _ Hf _ Hin) as (r0 & _ & Hx).
  destruct (text r0) as [|t|] eqn:Ht; try discriminate.
  inversion Hx; subst r lang sc; clear Hx.
  split; [exists t; split; [exact Ht | reflexivity]|].
  set (lang := classify t).
  destruct (str_in lang supported_languages) eqn:Hl.
  - split; [|discriminate].
    unfold calculate_sentiment_score. rewrite Hl.
    destruct (String.eqb lang "en"); [right; eexists; split; [reflexivity | apply Hen]|].
    destruct (String.eqb lang "de"); [right; eexists; split; [reflexivity | apply Hde]|].
    destruct (String.eqb lang "fr"); [right; eexists; split; [reflexivity | apply Hfr]|].
    left; reflexivity.
  - split; [|intros _; exact (sentiment_fallback an t lang _ Hl)].
    destruct (sentiment_fallback an t lang (num (rating r0)) Hl)
      as [(k & Hk & _ & v & Hv & Hvk) | [Hn _]].
    + right. exists v. split; [exact Hv|]. rewrite Hvk.
      assert (k = 5 \/ k = 4 \/ k = 3 \/ k = 2 \/ k = 1)%Z as Hc by lia.
      destruct Hc as [-> | [-> | [-> | [-> | ->]]]]; split; vm_compute; discriminate.
    + left. exact Hn.
Qed.

Lemma sentiment_scores_range_witness :
  insert_sentiment_scores (fun _ => "it") (mkAnalyzers (fun _ => 0) (fun _ => 0) (fun _ => 0))
                          [shared_review_example] <> None /\
  (insert_sentiment_scores (fun _ => "it") (mkAnalyzers (fun _ => 0) (fun _ => 0) (fun _ => 0))
                           [shared_review_example] = None <->
     [shared_review_example] = [] \/
     exists r, In r [shared_review_example] /\ is_text (text r) = false) /\
  forall scored,
    insert_sentiment_scores (fun _ => "it") (mkAnalyzers (fun _ => 0) (fun _ => 0) (fun _ => 0))
                            [shared_review_example] = Some scored ->
  map (fun x => fst (fst x)) scored = [shared_review_example] /\
  forall r lang sc, In (r, lang, sc) scored ->
    (exists t, text r = CText t /\ lang = (fun _ => "it") t) /\
    (sc = None \/ exists v, sc = Some v /\ (-1 <= v <= 1)%Q) /\
    (str_in lang supported_languages = false ->
     (exists k, (1 <= k <= 5)%Z /\ (num (rating r) == inject_Z k)%Q /\
        exists v, sc = Some v /\ (v == (inject_Z k - 3) / 2)%Q) \/
     (sc = None /\ forall k, (1 <= k <= 5)%Z -> ~ (num (rating r) == inject_Z k)%Q)).
Proof.
  split; [vm_compute; discriminate|].
  apply (sentiment_scores_range (fun _ => "it") (mkAnalyzers (fun _ => 0) (fun _ => 0) (fun _ => 0)));
    intros s; simpl; split; vm_compute; discriminate.
Defined.

(** ** Top performers: names and emptiness *)

Lemma sum_q_le_max (l : list Q) (m : Q) :
  (forall y, In y l -> y <= m)%Q -> (sum_q l <= inject_Z (Z.of_nat (length l)) * m)%Q.
Proof.
  induction l as [|x l IH]; intros H.
  - simpl. rewrite Qmult_0_l. apply Qle_refl.
  - change (sum_q (x :: l)) with (x + sum_q l)%Q.
    change (length (x :: l)) with (S (length l)).
    rewrite Nat2Z.inj_succ, <- Z.add_1_r, inject_Z_plus, Qmult_plus_distr_l, Qmult_1_l.
    rewrite Qplus_comm. apply Qplus_le_compat.
    + apply IH. intros y Hy. apply H. right. exact Hy.
    + apply H. left. reflexivity.
Qed.

Lemma max_exists (l : list Q) :
  l <> [] -> exists m, In m l /\ forall y, In y l -> (y <= m)%Q.
Proof.
  induction l as [|x l IH]; intros Hne; [contradiction|].
  destruct l as [|x' l'].
  - exists x. split; [left; reflexivity|]. intros y [<- | []]. apply Qle_refl.
  - destruct (IH ltac:(discriminate)) as (m & Hm & Hmax).
    destruct (Qlt_le_dec m x) as [Hlt|Hle].
    + exists x. split; [left; reflexivity|]. intros y [<- | Hy]; [apply Qle_refl|].
      apply (Qle_trans _ m); [exact (Hmax y Hy) | apply Qlt_le_weak; exact Hlt].
    + exists m. split; [right; exact Hm|]. intros y [<- | Hy]; [exact Hle | exact (Hmax y Hy)].
Qed.

(** A non-empty list has an element at least as large as its mean. *)
Lemma mean_le_some (l : list Q) (thresh : Q) :
  mean l = Some thresh -> exists x, In x l /\ (thresh <= x)%Q.
Proof.
  intros Hm. destruct l as [|x0 l0] eqn:El; [discriminate|].
  rewrite <- El in Hm |- *.
  destruct (max_exists l) as (m & Hm_in & Hmax); [rewrite El; discriminate|].
  exists m. split; [exact Hm_in|].
  unfold mean in Hm. rewrite El in Hm. rewrite <- El in Hm. inversion Hm. subst thresh.
  apply Qle_shift_div_r.
  - change 0%Q with (inject_Z 0). rewrite <- Zlt_Qlt. rewrite El. simpl. lia.
  - rewrite Qmult_comm. apply sum_q_le_max. exact Hmax.
Qed.

Lemma NoDup_map_filter {A B} (f : A -> B) (P : A -> bool) (l : list A) :
  NoDup (map f l) -> NoDup (map f (filter P l)).
Proof.
  induction l as [|x l IH]; simpl; intros H; [constructor|].
  apply NoDup_cons_iff in H as [Hx Hl].
  destruct (P x); simpl; [|exact (IH Hl)].
  constructor; [|exact (IH Hl)].
  intros Hin. apply Hx. apply in_map_iff in Hin as (y & Hy & Hin).
  apply filter_In in Hin as [Hin _]. rewrite <- Hy. apply in_map. exact Hin.
Qed.

Lemma NoDup_firstn {A} (n : nat) (l : list A) : NoDup l -> NoDup (firstn n l).
Proof.
  intros H. rewrite <- (firstn_skipn n l) in H. exact (NoDup_app_remove_r _ _ H).
Qed.

Lemma groupby_name_names (df : list listing) (groups : list (string * Q * Q)) :
  groupby_name df = Some groups ->
  map (fun '(n, _, _) => n) groups = sort_by String.leb (nodup string_dec (map name df)).
Proof.
  unfold groupby_name. destruct (existsb _ df); [discriminate|].
  intros H. inversion H. rewrite map_map. apply map_id.
Qed.

Lemma groupby_name_nonempty (df : list listing) (groups : list (string * Q * Q)) :
  groupby_name df = Some groups -> (groups <> [] <-> df <> []).
Proof.
  intros Hg. pose proof (groupby_name_names df groups Hg) as Hn. split.
  - intros Hne Hdf. subst df. destruct groups as [|[[n a] t] gs]; [contradiction|].
    discriminate Hn.
  - intros Hne Hgs. destruct df as [|r df]; [contradiction|].
    assert (Hin : In (name r) (sort_by String.leb (nodup string_dec (map name (r :: df))))).
    { apply (Permutation_in _ (sort_by_perm _ _)). apply nodup_In. left. reflexivity. }
    rewrite <- Hn, Hgs in Hin. contradiction.
Qed.

Lemma sort_by_nil {A} (le : A -> A -> bool) (l : list A) : sort_by le l = [] <-> l = [].
Proof.
  split.
  - intros H. apply Permutation_nil. rewrite <- H. apply Permutation_sym, sort_by_perm.
  - intros ->. reflexivity.
Qed.

Lemma firstn_S_nil {A} (k : nat) (l : list A) : firstn (S k) l = [] <-> l = [].
Proof. destruct l; simpl; split; congruence. Qed.

(** X10. [top_performing_places] raises exactly when some listing with an
    [averageRating] (not NaN) holds a text in [averageRating] or in
    [totalReviews]. Otherwise its chart never shows a pharmacy name twice,
    and it is empty exactly when every listing's [averageRating] is
    missing: otherwise the group with the most reviews always reaches the
    mean threshold. *)
Theorem top_performers_names (df : list listing) :
  (top_performing_places df = None <->
   exists r, In r df /\ is_nan (averageRating r) = false /\
     (is_text (averageRating r) = true \/ is_text (totalReviews r) = true)) /\
  forall out, top_performing_places df = Some out ->
    NoDup (map tp_name out) /\
    (out <> [] <-> exists r, In r df /\ is_nan (averageRating r) = false).
Proof.
  set (df' := filter (fun r => negb (is_nan (averageRating r))) df).
  assert (Hdf' : forall r, In r df' <-> In r df /\ is_nan (averageRating r) = false).
  { intros r. unfold df'. rewrite filter_In, negb_true_iff. reflexivity. }
  assert (Hex : (exists r, In r df /\ is_nan (averageRating r) = false) <-> df' <> []).
  { split.
    - intros (r & Hr & Hn) Hnil. pose proof (proj2 (Hdf' r) (conj Hr Hn)) as Hr'.
      rewrite Hnil in Hr'. contradiction.
    - intros Hne. destruct df' as [|r l] eqn:E; [contradiction|].
      exists r. apply Hdf'. left. reflexivity. }
  unfold top_performing_places, top_candidates. fold df'.
  destruct (groupby_name df') as [groups|] eqn:Hg.
  2:{ split; [|intros out Hout; discriminate].
      split; [intros _ | intros _; reflexivity].
      unfold groupby_name in Hg. destruct (existsb _ df') eqn:E; [|discriminate].
      apply existsb_exists in E as (r & Hr & Ht). apply Hdf' in Hr as [Hr Hn].
      exists r. split; [exact Hr|]. split; [exact Hn | left; exact Ht]. }
  assert (Hnt : forall r, In r df' -> is_text (averageRating r) = false).
  { intros r Hr. unfold groupby_name in Hg.
    destruct (is_text (averageRating r)) eqn:E; [|reflexivity].
    rewrite (proj2 (existsb_exists _ _) (ex_intro _ r (conj Hr E))) in Hg. discriminate. }
  destruct (existsb (fun r => is_text (totalReviews r)) df') eqn:Htot.
  { split; [|intros out Hout; discriminate].
    split; [intros _ | intros _; reflexivity].
    apply existsb_exists in Htot as (r & Hr & Ht). apply Hdf' in Hr as [Hr Hn].
    exists r. split; [exact Hr|]. split; [exact Hn | right; exact Ht]. }
  assert (Hnone : ~ exists r, In r df /\ is_nan (averageRating r) = false /\
                    (is_text (averageRating r) = true \/ is_text (totalReviews r) = true)).
  { intros (r & Hr & Hn & [Ht | Ht]).
    - rewrite (Hnt r (proj2 (Hdf' r) (conj Hr Hn))) in Ht. discriminate.
    - rewrite (proj2 (existsb_exists _ _) (ex_intro _ r (conj (proj2 (Hdf' r) (conj Hr Hn)) Ht)))
        in Htot. discriminate. }
  pose proof (groupby_name_nonempty df' groups Hg) as Hgne.
  destruct (mean (map (fun '(_, _, t) => t) groups)) as [thresh|] eqn:Hm.
  - split; [split; [discriminate | intros H; contradiction]|].
    intros out Hout. cbv beta iota in Hout.
    apply (f_equal (fun o => match o with Some x => x | None => [] end)) in Hout.
    cbv beta iota in Hout. subst out. split.
    + rewrite <- firstn_map. apply NoDup_firstn.
      apply (Permutation_NoDup (Permutation_map _ (sort_by_perm top_le _))).
      rewrite map_map.
      rewrite (map_ext (fun x : string * Q * Q => tp_name (let '(n, a, t) := x in
                  mkTopPlace n a t (fmul100 (fdiv a t))))
        (fun x : string * Q * Q => let '(n, _, _) := x in n))
        by (intros [[n a] t]; reflexivity).
      apply NoDup_map_filter. rewrite (groupby_name_names df' groups Hg).
      apply (Permutation_NoDup (sort_by_perm _ _)). apply NoDup_nodup.
    + rewrite Hex, <- Hgne. split.
      * intros Hne Hgs. apply Hne. subst groups. reflexivity.
      * intros _. rewrite firstn_S_nil, sort_by_nil.
        destruct (mean_le_some _ _ Hm) as (x & Hx & Hle).
        apply in_map_iff in Hx as ([[n a] t] & <- & Hg').
        intros Hnil. apply map_eq_nil in Hnil.
        assert (Hin : In (n, a, t) (filter (fun '(_, _, t) => Qle_bool thresh t) groups)).
        { apply filter_In. split; [exact Hg'|]. apply Qle_bool_iff. exact Hle. }
        rewrite Hnil in Hin. contradiction.
  - split; [split; [discriminate | intros H; contradiction]|].
    intros out Hout. cbv beta iota in Hout.
    apply (f_equal (fun o => match o with Some x => x | None => [] end)) in Hout.
    cbv beta iota in Hout. subst out. split; [constructor|].
    rewrite Hex, <- Hgne. split; [intros Hne; contradiction Hne; reflexivity|].
    intros Hne. destruct groups as [|[[n a] t] gs]; [contradiction | discriminate].
Qed.

Lemma top_performers_names_witness :
  top_performing_places top_example_table <> None /\
  (top_performing_places top_example_table = None <->
   exists r, In r top_example_table /\ is_nan (averageRating r) = false /\
     (is_text (averageRating r) = true \/ is_text (totalReviews r) = true)) /\
  forall out, top_performing_places top_example_table = Some out ->
    NoDup (map tp_name out) /\
    (out <> [] <-> exists r, In r top_example_table /\ is_nan (averageRating r) = false).
Proof.
  split; [vm_compute; discriminate|].
  exact (top_performers_names top_example_table).
Defined.

(** ** The map view *)

Lemma str_in_iff (x : string) (l : list string) : str_in x l = true <-> In x l.
Proof.
  unfold str_in. rewrite existsb_exists. split.
  - intros (y & Hy & Heq). apply String.eqb_eq in Heq. subst y. exact Hy.
  - intros Hx. exists x. split; [exact Hx | apply String.eqb_refl].
Qed.

Lemma isin_string_iff (x : option string) (l : list string) :
  isin String.eqb x l = true <-> exists c, x = Some c /\ In c l.
Proof.
  destruct x as [c|]; simpl.
  - change (existsb (String.eqb c) l) with (str_in c l). rewrite str_in_iff. split.
    + intros H. exists c. split; [reflexivity | exact H].
    + intros (c' & Hc & H). inversion Hc; subst c'. exact H.
  - split; [discriminate | intros (c & Hc & _); discriminate].
Qed.

Lemma in_optional_filter {A B} (sel : list B) (f : A -> bool)
  (P : A -> Prop) (l : list A) (r : A) :
  (forall x, f x = true <-> P x) ->
  In r (match sel with [] => l | _ => filter f l end) <->
  In r l /\ (sel = [] \/ P r).
Proof.
  intros HP. destruct sel as [|s sel'].
  - split; [intros H; split; [exact H | left; reflexivity] | intros [H _]; exact H].
  - rewrite filter_In, HP. split.
    + intros [H1 H2]. split; [exact H1 | right; exact H2].
    + intros [H1 [H2|H2]]; [discriminate | split; assumption].
Qed.

Lemma create_map_rows (l : list listing) :
  (forall r, In r l -> exists c, markerColor r = Some c /\
                                 In c ["green"; "orange"; "lightgray"; "red"]) ->
  exists m, create_map l = Some m /\ map mk_tooltip (fm_markers m) = map name l /\
            Forall (fun mk => In (mk_color mk) ["green"; "orange"; "lightgray"; "red"])
                   (fm_markers m).
Proof.
  intros H. destruct (map_opt_row_marker l H) as (ms & Hms & Hn & Hf).
  destruct l as [|x l'].
  - eexists. split; [reflexivity|]. split; [reflexivity | constructor].
  - unfold create_map. simpl mean. rewrite Hms.
    eexists. split; [reflexivity|]. split; [exact Hn | exact Hf].
Qed.

(** X11. [map_view] on the normalized listings: each of the three
    selections (name, address, city) restricts the rows only when it is not
    empty, the rows kept are exactly those matching every non-empty
    selection, and the map drawn from them never raises and has one marker
    per kept row, with the row's name as tooltip. The shared listings are
    left unchanged. *)
Theorem map_view_markers (parse_number : string -> option Q) (isdigit : N -> bool)
  (tbl : list listing)
  (name_sel address_sel city_sel : list string) (st : app_state) :
  pre_process_listings_data parse_number isdigit tbl = Some (data st) ->
  fst (map_view name_sel address_sel city_sel st) = st /\
  (forall r, In r (snd (map_view name_sel address_sel city_sel st)) <->
     In r (data st) /\
     (name_sel = [] \/ In (name r) name_sel) /\
     (address_sel = [] \/ In (address r) address_sel) /\
     (city_sel = [] \/ exists c, city r = Some c /\ In c city_sel)) /\
  exists m, create_map (snd (map_view name_sel address_sel city_sel st)) = Some m /\
    map mk_tooltip (fm_markers m) = map name (snd (map_view name_sel address_sel city_sel st)).
Proof.
  intros H.
  assert (Hmem : forall r, In r (snd (map_view name_sel address_sel city_sel st)) <->
     In r (data st) /\
     (name_sel = [] \/ In (name r) name_sel) /\
     (address_sel = [] \/ In (address r) address_sel) /\
     (city_sel = [] \/ exists c, city r = Some c /\ In c city_sel)).
  { intros r. unfold map_view. simpl.
    rewrite (in_optional_filter city_sel (fun x => isin String.eqb (city x) city_sel)
               (fun x => exists c, city x = Some c /\ In c city_sel))
      by (intros x; apply isin_string_iff).
    rewrite (in_optional_filter address_sel (fun x => str_in (address x) address_sel)
               (fun x => In (address x) address_sel))
      by (intros x; apply str_in_iff).
    rewrite (in_optional_filter name_sel (fun x => str_in (name x) name_sel)
               (fun x => In (name x) name_sel))
      by (intros x; apply str_in_iff).
    tauto. }
  split; [reflexivity|]. split; [exact Hmem|].
  destruct (create_map_rows (snd (map_view name_sel address_sel city_sel st)))
    as (m & Hm & Hn & _).
  { intros r Hr. apply Hmem in Hr as [Hr _].
    destruct (processed_listing_fields _ _ _ _ H r Hr)
      as (_ & _ & _ & _ & _ & _ & mc & _ & _ & _ & _ & _ & _ & Hmc & Hmcin & _).
    eexists. split; [exact Hmc | exact Hmcin]. }
  exists m. split; [exact Hm | exact Hn].
Qed.

Lemma map_view_markers_witness :
  pre_process_listings_data (fun _ => None) ascii_isdigit rank_example_table
    = Some (data (mkAppState rank_example_output [] Datetime64)) /\
  map name (snd (map_view ["Apotheke A"] [] [] (mkAppState rank_example_output [] Datetime64)))
    = ["Apotheke A"] /\
  (fst (map_view ["Apotheke A"] [] [] (mkAppState rank_example_output [] Datetime64))
     = mkAppState rank_example_output [] Datetime64 /\
   (forall r, In r (snd (map_view ["Apotheke A"] [] [] (mkAppState rank_example_output [] Datetime64))) <->
      In r (data (mkAppState rank_example_output [] Datetime64)) /\
      (["Apotheke A"] = [] \/ In (name r) ["Apotheke A"]) /\
      (@nil string = [] \/ In (address r) []) /\
      (@nil string = [] \/ exists c, city r = Some c /\ In c [])) /\
   exists m, create_map (snd (map_view ["Apotheke A"] [] [] (mkAppState rank_example_output [] Datetime64)))
               = Some m /\
     map mk_tooltip (fm_markers m)
       = map name (snd (map_view ["Apotheke A"] [] [] (mkAppState rank_example_output [] Datetime64)))).
Proof.
  assert (H : pre_process_listings_data (fun _ => None) ascii_isdigit rank_example_table
              = Some (data (mkAppState rank_example_output [] Datetime64))) by (vm_compute; reflexivity).
  split; [exact H|]. split; [vm_compute; reflexivity|].
  exact (map_view_markers _ _ _ ["Apotheke A"] [] [] _ H).
Defined.

(** ** The rating pie chart *)

Lemma list_sum_map_add {A} (a b : A -> nat) (l : list A) :
  list_sum (map (fun x => a x + b x)%nat l) = (list_sum (map a l) + list_sum (map b l))%nat.
Proof. induction l as [|x l IH]; simpl; [reflexivity|]. rewrite IH. lia. Qed.

Lemma list_sum_map_zero {A} (a : A -> nat) (l : list A) :
  (forall x, a x = 0%nat) -> list_sum (map a l) = 0%nat.
Proof. intros H. induction l as [|x l IH]; simpl; [reflexivity|]. rewrite H, IH. reflexivity. Qed.

Lemma list_sum_perm (l l' : list nat) : Permutation l l' -> list_sum l = list_sum l'.
Proof. induction 1; simpl; lia. Qed.

Lemma indicator_sum {K} (dec : forall x y : K, {x = y} + {x <> y}) (v : K) (ks : list K) :
  NoDup ks ->
  list_sum (map (fun k => if dec v k then 1 else 0)%nat ks) = (if in_dec dec v ks then 1 else 0)%nat.
Proof.
  induction 1 as [|k ks Hk _ IH]; [reflexivity|]. cbn [map].
  change (list_sum (?a :: ?l)) with (a + list_sum l)%nat.
  rewrite IH.
  destruct (in_dec dec v (k :: ks)) as [Hi'|Hi']; destruct (in_dec dec v ks) as [Hi|Hi];
    destruct (dec v k) as [->|Hne]; try contradiction; try reflexivity.
  all: exfalso; first
    [ apply Hi'; left; reflexivity
    | apply Hi'; right; exact Hi
    | destruct Hi' as [Heq|Hi']; [exact (Hne (eq_sym Heq)) | exact (Hi Hi')] ].
Qed.

(** Counting per key over distinct keys that cover every key counts every
    row with a key once. *)
Lemma sum_counts {A K} (dec : forall x y : K, {x = y} + {x <> y})
  (f : A -> option K) (g : A -> bool) (ks : list K) (l : list A) :
  NoDup ks -> (forall x k, In x l -> f x = Some k -> In k ks) ->
  list_sum (map (fun k => length (filter (fun x => match f x with
                                                   | Some k' => if dec k' k then true else false
                                                   | None => false end && g x) l)) ks)
  = length (filter (fun x => match f x with Some _ => g x | None => false end) l).
Proof.
  intros Hnd. induction l as [|x l IH]; intros Hcov.
  - simpl. apply list_sum_map_zero. reflexivity.
  - simpl.
    rewrite (map_ext _ (fun k => (if match f x with
                                      | Some k' => if dec k' k then g x else false
                                      | None => false end then 1 else 0)%nat
                                 + length (filter (fun x => match f x with
                                     | Some k' => if dec k' k then true else false
                                     | None => false end && g x) l))%nat).
    2:{ intros k. destruct (f x) as [k'|]; [destruct (dec k' k)|]; simpl;
        destruct (g x); reflexivity. }
    rewrite list_sum_map_add.
    rewrite IH by (intros y k Hy Hf; apply (Hcov y k); [right; exact Hy | exact Hf]).
    destruct (f x) as [v|] eqn:Hfx.
    + destruct (g x) eqn:Hg.
      * rewrite (map_ext _ (fun k => if dec v k then 1 else 0)%nat)
          by (intros k; destruct (dec v k); reflexivity).
        rewrite indicator_sum by exact Hnd.
        destruct (in_dec dec v ks) as [_|Hn]; [reflexivity|].
        exfalso. apply Hn. apply (Hcov x); [left; reflexivity | exact Hfx].
      * rewrite list_sum_map_zero by (intros k; destruct (dec v k); reflexivity).
        reflexivity.
    + rewrite list_sum_map_zero by reflexivity. reflexivity.
Qed.

Lemma trunc_Qeq (p q : Q) : (p == q)%Q -> Py.trunc p = Py.trunc q.
Proof.
  intros H. unfold Py.trunc.
  assert (Hf : Qfloor p = Qfloor q) by (apply Qfloor_comp; exact H).
  assert (Hfn : Qfloor (- p) = Qfloor (- q)) by (apply Qfloor_comp; rewrite H; reflexivity).
  destruct p as [a b], q as [c d]. unfold Qeq in H. simpl in *.
  pose proof (Pos2Z.is_pos b). pose proof (Pos2Z.is_pos d).
  destruct (Z.le_gt_cases 0 a) as [Ha|Ha].
  - assert (Hc : (0 <= c)%Z) by nia.
    rewrite !Z.quot_div_nonneg by lia. exact Hf.
  - assert (Hc : (c < 0)%Z).
    { assert (Hn : (a * Z.pos d < 0)%Z) by (apply Z.mul_neg_pos; lia).
      destruct (Z.lt_ge_cases c 0) as [Hc|Hc]; [exact Hc|].
      assert (0 <= c * Z.pos b)%Z by (apply Z.mul_nonneg_nonneg; lia). lia. }
    replace a with (- (- a))%Z by lia. replace c with (- (- c))%Z by lia.
    rewrite (Z.quot_opp_l (- a)), (Z.quot_opp_l (- c)) by lia.
    rewrite (Z.quot_div_nonneg (- a)), (Z.quot_div_nonneg (- c)) by lia.
    unfold Qopp in Hfn. simpl in Hfn. rewrite Hfn. reflexivity.
Qed.

Lemma pie_label_some (z : Z) : pie_label z <> None <-> (1 <= z <= 5)%Z.
Proof.
  unfold pie_label.
  destruct (Z.eqb_spec z 5); [split; [lia | discriminate]|].
  destruct (Z.eqb_spec z 4); [split; [lia | discriminate]|].
  destruct (Z.eqb_spec z 3); [split; [lia | discriminate]|].
  destruct (Z.eqb_spec z 2); [split; [lia | discriminate]|].
  destruct (Z.eqb_spec z 1); [split; [lia | discriminate]|].
  split; [intros H; contradiction | lia].
Qed.

Lemma zleb_total (a b : Z) : (a <=? b)%Z = false -> (b <=? a)%Z = true.
Proof. intros H. apply Z.leb_gt in H. apply Z.leb_le. lia. Qed.

Lemma map_fst_combine_eq {A B} (l : list A) (l' : list B) :
  length l = length l' -> map fst (combine l l') = l.
Proof.
  revert l'. induction l as [|x l IH]; intros [|y l'] H; try discriminate; [reflexivity|].
  simpl. rewrite IH; [reflexivity | simpl in H; lia].
Qed.

Lemma in_combine_map {A B} (f : A -> B) (l : list A) (x : A) (y : B) :
  In (x, y) (combine l (map f l)) -> In x l /\ y = f x.
Proof.
  induction l as [|a l IH]; simpl; [contradiction|].
  intros [H | H]; [inversion H; subst; split; [left | ]; reflexivity|].
  destruct (IH H) as [Hx Hy]. split; [right; exact Hx | exact Hy].
Qed.

Lemma keys_astype_int_length (py_int_of_str : string -> option Z) (ks : list rating_group)
  (zs : list Z) :
  keys_astype_int py_int_of_str ks = Some zs -> length ks = length zs.
Proof.
  unfold keys_astype_int. destruct (existsb _ ks).
  - intros H. exact (Forall2_length (map_opt_Forall2 _ _ _ H)).
  - intros H. inversion H. rewrite length_map. reflexivity.
Qed.

Lemma astype_int64_Qeq (p q : Q) : (p == q)%Q -> Py.astype_int64 p = Py.astype_int64 q.
Proof. intros H. unfold Py.astype_int64. rewrite (trunc_Qeq p q H). reflexivity. Qed.

Lemma rating_keys_in (df : list review) (k : rating_group) :
  In k (rating_keys df) <-> exists r, In r df /\ rating_key r = Some k.
Proof.
  unfold rating_keys. split.
  - intros Hk. apply (Permutation_in _ (Permutation_sym (sort_by_perm _ _))) in Hk.
    apply nodup_In, in_flat_map in Hk as (r & Hr & Hk).
    exists r. split; [exact Hr|]. destruct (rating_key r); [|contradiction].
    destruct Hk as [-> | []]. reflexivity.
  - intros (r & Hr & Hk). apply (Permutation_in _ (sort_by_perm _ _)).
    apply nodup_In, in_flat_map. exists r. split; [exact Hr|]. rewrite Hk. left. reflexivity.
Qed.

(** X12. When [rating_breakdown_pie] returns, its pie has one slice per
    distinct rating value, ordered by the integer value of the slice; the
    slice sizes add up to the number of reviews with a rating and a text
    (a group whose texts are all missing keeps a slice of size 0); a slice
    is labelled exactly when its integer lies in 1..5 (a rating of 0 gets
    a slice without a label). When no rating is a text the pie never
    raises, and each slice is [astype(int)] of a rating of the table: its
    integer part, or -2^63 outside the int64 range. *)
Theorem rating_pie_counts (py_int_of_str : string -> option Z) (df : list review) :
  (forall slices, rating_breakdown_pie py_int_of_str df = Some slices ->
     list_sum (map ps_count slices)
       = length (filter (fun r => negb (is_nan (rating r)) && has_text r) df) /\
     length slices = length (rating_keys df) /\
     Sorted (fun a b => (ps_rating a <=? ps_rating b)%Z = true) slices /\
     (forall s, In s slices -> (ps_label s <> None <-> (1 <= ps_rating s <= 5)%Z))) /\
  ((forall r, In r df -> is_text (rating r) = false) ->
     exists slices, rating_breakdown_pie py_int_of_str df = Some slices /\
       forall s, In s slices ->
         exists r q, In r df /\ rating r = CNum q /\ ps_rating s = Py.astype_int64 q).
Proof.
  set (ks := rating_keys df).
  assert (Hnd : NoDup ks).
  { unfold ks, rating_keys. apply (Permutation_NoDup (sort_by_perm _ _)). apply NoDup_nodup. }
  split.
  - intros slices Hs. unfold rating_breakdown_pie in Hs. fold ks in Hs.
    destruct (keys_astype_int py_int_of_str ks) as [zs|] eqn:Hz; [|discriminate].
    injection Hs as <-.
    pose proof (keys_astype_int_length _ _ _ Hz) as Hlen.
    set (mk := fun '(k, z) => mkPieSlice z (pie_label z) (count_text df k)).
    pose proof (sort_by_perm (fun a b => (ps_rating a <=? ps_rating b)%Z)
                  (map mk (combine ks zs))) as Hperm.
    split; [|split; [|split]].
    + rewrite <- (list_sum_perm _ _ (Permutation_map ps_count Hperm)).
      rewrite map_map.
      rewrite (map_ext (fun x => ps_count (mk x)) (fun x => count_text df (fst x)))
        by (intros [k z]; reflexivity).
      rewrite <- (map_map fst (count_text df)), (map_fst_combine_eq ks zs Hlen).
      unfold count_text, key_is.
      rewrite (sum_counts rating_group_eq_dec rating_key has_text ks df Hnd).
      * apply f_equal. apply filter_ext. intros r. unfold rating_key.
        destruct (rating r); reflexivity.
      * intros x k Hx Hk. apply rating_keys_in. exists x. split; assumption.
    + rewrite <- (Permutation_length Hperm), length_map, length_combine. lia.
    + apply sort_by_sorted. exact (fun a b => zleb_total (ps_rating a) (ps_rating b)).
    + intros s Hs. apply (Permutation_in _ (Permutation_sym Hperm)) in Hs.
      apply in_map_iff in Hs as ([k z] & <- & _). apply pie_label_some.
  - intros Hnt.
    assert (Hnotext : existsb (fun k => match k with RText _ => true | RNum _ => false end) ks
                      = false).
    { apply not_true_iff_false. intros He. apply existsb_exists in He as (k & Hk & Ht).
      apply rating_keys_in in Hk as (r & Hr & Hk). unfold rating_key in Hk.
      pose proof (Hnt r Hr) as Hr'.
      destruct (rating r); try discriminate; injection Hk as <-; discriminate. }
    unfold rating_breakdown_pie, keys_astype_int. fold ks. rewrite Hnotext.
    eexists. split; [reflexivity|].
    intros s Hs. apply (Permutation_in _ (Permutation_sym (sort_by_perm _ _))) in Hs.
    apply in_map_iff in Hs as ([k z] & <- & Hkz). simpl.
    apply in_combine_map in Hkz as [Hk ->].
    apply rating_keys_in in Hk as (r & Hr & Hk). unfold rating_key in Hk.
    pose proof (Hnt r Hr) as Hr'.
    destruct (rating r) as [q| |] eqn:Hq; try discriminate.
    injection Hk as <-. exists r, q. split; [exact Hr|]. split; [exact Hq|].
    apply astype_int64_Qeq. apply Qred_correct.
Qed.

Lemma rating_pie_counts_witness :
  rating_breakdown_pie (fun _ => None) review_example_table <> None /\
  (forall slices, rating_breakdown_pie (fun _ => None) review_example_table = Some slices ->
     list_sum (map ps_count slices)
       = length (filter (fun r => negb (is_nan (rating r)) && has_text r) review_example_table) /\
     length slices = length (rating_keys review_example_table) /\
     Sorted (fun a b => (ps_rating a <=? ps_rating b)%Z = true) slices /\
     (forall s, In s slices -> (ps_label s <> None <-> (1 <= ps_rating s <= 5)%Z))) /\
  ((forall r, In r review_example_table -> is_text (rating r) = false) ->
     exists slices, rating_breakdown_pie (fun _ => None) review_example_table = Some slices /\
       forall s, In s slices ->
         exists r q, In r review_example_table /\ rating r = CNum q /\
                     ps_rating s = Py.astype_int64 q).
Proof.
  split; [vm_compute; discriminate|].
  exact (rating_pie_counts (fun _ => None) review_example_table).
Defined.

(** ** Average rating per period *)

Lemma StronglySorted_filter {A} (R : A -> A -> Prop) (f : A -> bool) (l : list A) :
  StronglySorted R l -> StronglySorted R (filter f l).
Proof.
  induction 1 as [|x l _ IH Hf]; simpl; [constructor|].
  destruct (f x); [|exact IH].
  constructor; [exact IH|]. apply Forall_forall. intros y Hy.
  apply filter_In in Hy as [Hy _]. exact (proj1 (Forall_forall _ _) Hf y Hy).
Qed.

Lemma StronglySorted_map {A B} (R : B -> B -> Prop) (g : A -> B) (l : list A) :
  StronglySorted (fun a b => R (g a) (g b)) l -> StronglySorted R (map g l).
Proof.
  induction 1 as [|x l _ IH Hf]; simpl; [constructor|].
  constructor; [exact IH|]. apply Forall_map. exact Hf.
Qed.

Lemma StronglySorted_weaken_in {A} (R R' : A -> A -> Prop) (l : list A) :
  (forall a b, In a l -> In b l -> R a b -> R' a b) ->
  StronglySorted R l -> StronglySorted R' l.
Proof.
  intros H Hs. induction Hs as [|x l _ IH Hf]; [constructor|].
  constructor.
  - apply IH. intros a b Ha Hb. apply H; right; assumption.
  - apply Forall_forall. intros y Hy. apply H; [left; reflexivity | right; exact Hy|].
    exact (proj1 (Forall_forall _ _) Hf y Hy).
Qed.

Lemma StronglySorted_nodup {A} (R : A -> A -> Prop) (l : list A) :
  StronglySorted R l -> NoDup l -> StronglySorted (fun a b => R a b /\ a <> b) l.
Proof.
  induction 1 as [|x l _ IH Hf]; intros Hnd; [constructor|].
  apply NoDup_cons_iff in Hnd as [Hx Hnd].
  constructor; [exact (IH Hnd)|]. apply Forall_forall. intros y Hy. split.
  - exact (proj1 (Forall_forall _ _) Hf y Hy).
  - intros ->. exact (Hx Hy).
Qed.

Lemma lex_le_trans (a b c : list Z) :
  lex_le a b = true -> lex_le b c = true -> lex_le a c = true.
Proof.
  revert b c; induction a as [|x a IH]; intros b c Hab Hbc; [reflexivity|].
  destruct b as [|y b]; [discriminate|]. destruct c as [|z c]; [discriminate|].
  simpl in *. apply orb_true_iff in Hab, Hbc. apply orb_true_iff.
  destruct Hab as [Hxy|Hxy], Hbc as [Hyz|Hyz].
  - left. apply Z.ltb_lt in Hxy, Hyz. apply Z.ltb_lt. lia.
  - apply andb_prop in Hyz as [Hyz _]. apply Z.eqb_eq in Hyz. subst z. left. exact Hxy.
  - apply andb_prop in Hxy as [Hxy _]. apply Z.eqb_eq in Hxy. subst y. left. exact Hyz.
  - apply andb_prop in Hxy as [Hxy Hab], Hyz as [Hyz Hbc].
    apply Z.eqb_eq in Hxy, Hyz. subst y z. right. apply andb_true_intro.
    split; [apply Z.eqb_refl | exact (IH b c Hab Hbc)].
Qed.

Lemma groupby_mean_none (rows : list (list Z * cell)) :
  groupby_mean rows = None <-> exists p, In p rows /\ is_text (snd p) = true.
Proof.
  unfold groupby_mean. destruct (existsb _ rows) eqn:E.
  - split; [intros _; apply existsb_exists in E; exact E | reflexivity].
  - split; [discriminate|]. intros Hex. apply existsb_exists in Hex. congruence.
Qed.

Lemma groupby_mean_sorted (rows : list (list Z * cell)) (avg : list (list Z * option Q)) :
  groupby_mean rows = Some avg ->
  StronglySorted (fun a b => lex_le (fst a) (fst b) = true /\ fst a <> fst b) avg.
Proof.
  unfold groupby_mean. destruct (existsb _ rows); [discriminate|]. intros H. injection H as <-.
  apply StronglySorted_map. simpl.
  apply StronglySorted_nodup.
  - apply Sorted_StronglySorted; [intros a b c; apply lex_le_trans|].
    apply sort_by_sorted. exact lex_le_total.
  - apply (Permutation_NoDup (sort_by_perm _ _)). apply NoDup_nodup.
Qed.

Lemma groupby_mean_in (rows : list (list Z * cell)) (avg : list (list Z * option Q))
  (k : list Z) (m : option Q) :
  groupby_mean rows = Some avg ->
  In (k, m) avg <->
  In k (map fst rows) /\
  m = mean (rating_values (map snd (filter (fun p => list_Z_eqb (fst p) k) rows))).
Proof.
  unfold groupby_mean. destruct (existsb _ rows); [discriminate|]. intros H. injection H as <-.
  rewrite in_map_iff. split.
  - intros (k' & Heq & Hk). inversion Heq; subst k' m.
    apply (Permutation_in _ (Permutation_sym (sort_by_perm _ _))), nodup_In in Hk.
    split; [exact Hk | reflexivity].
  - intros [Hk ->]. exists k. split; [reflexivity|].
    apply (Permutation_in _ (sort_by_perm _ _)), nodup_In. exact Hk.
Qed.

Lemma groupby_mean_keys (rows : list (list Z * cell)) (avg : list (list Z * option Q)) :
  groupby_mean rows = Some avg -> NoDup (map fst avg).
Proof.
  unfold groupby_mean. destruct (existsb _ rows); [discriminate|]. intros H. injection H as <-.
  rewrite map_map. simpl. rewrite map_id.
  apply (Permutation_NoDup (sort_by_perm _ _)). apply NoDup_nodup.
Qed.

Lemma dt_rows_none (key : timestamp -> list Z) (df : list review) :
  dt_rows key df = None <->
  exists r, In r df /\ ((exists s, datetime r = DText s) \/ (exists d, datetime r = DDate d)).
Proof.
  unfold dt_rows. split.
  - destruct (map_opt _ df) eqn:Hm; [discriminate|]. intros _.
    apply map_opt_none_ex in Hm as (r & Hr & Hf). exists r. split; [exact Hr|].
    destruct (datetime r) as [t|s|d|]; try discriminate.
    + left. exists s. reflexivity.
    + right. exists d. reflexivity.
  - intros (r & Hr & Hd). rewrite (map_opt_none_in _ _ r Hr); [reflexivity|].
    destruct Hd as [(s & ->)|(d & ->)]; reflexivity.
Qed.

Lemma dt_rows_spec (key : timestamp -> list Z) (df : list review)
  (rows : list (list Z * cell)) :
  dt_rows key df = Some rows ->
  (forall p, In p rows <->
     exists r t, In r df /\ datetime r = DTimestamp t /\ p = (key t, rating r)) /\
  (forall k, map snd (filter (fun p => list_Z_eqb (fst p) k) rows) =
             map rating (filter (fun r => match datetime r with
                                          | DTimestamp t => list_Z_eqb (key t) k
                                          | _ => false end) df)).
Proof.
  unfold dt_rows. revert rows. induction df as [|r df IH]; intros rows H.
  - simpl in H. inversion H; subst rows. split; [|reflexivity].
    intros p. simpl. split; [intros []|intros (r & t & [] & _)].
  - simpl in H.
    destruct (match datetime r with
              | DTimestamp t => Some [(key t, rating r)]
              | DNaT => Some []
              | _ => None end) as [ls|] eqn:Hr; [|discriminate].
    destruct (map_opt _ df) as [lss|] eqn:Hm; [|discriminate].
    inversion H; subst rows. clear H.
    destruct (IH (concat lss) eq_refl) as [IHin IHf].
    simpl. split.
    + intros p. rewrite in_app_iff, IHin. split.
      * intros [Hp | (r' & t & Hr' & Ht & ->)].
        -- destruct (datetime r) as [t| | |] eqn:Hd; inversion Hr; subst ls;
             [|destruct Hp].
           destruct Hp as [<- | []]. exists r, t. split; [left; reflexivity|].
           split; [exact Hd | reflexivity].
        -- exists r', t. split; [right; exact Hr'|]. split; [exact Ht | reflexivity].
      * intros (r' & t & [<- | Hr'] & Ht & ->).
        -- left. rewrite Ht in Hr. inversion Hr; subst ls. left. reflexivity.
        -- right. exists r', t. split; [exact Hr'|]. split; [exact Ht | reflexivity].
    + intros k. rewrite filter_app, map_app, IHf.
      destruct (datetime r) as [t| | |] eqn:Hd; inversion Hr; subst ls; simpl; [|reflexivity].
      destruct (list_Z_eqb (key t) k); reflexivity.
Qed.

Lemma quarter_of_range (m : Z) : (1 <= m <= 12)%Z -> (1 <= quarter_of m <= 4)%Z.
Proof.
  intros H. unfold quarter_of.
  assert (0 <= (m - 1) / 3)%Z by (apply Z.div_pos; lia).
  assert ((m - 1) / 3 < 4)%Z by (apply Z.div_lt_upper_bound; lia).
  lia.
Qed.

Lemma list_Z_eqb_refl (k : list Z) : list_Z_eqb k k = true.
Proof. unfold list_Z_eqb. destruct (list_eq_dec Z.eq_dec k k); [reflexivity | contradiction]. Qed.

Lemma in_quarters {B} (f : Z -> B) (q : Z) :
  (1 <= q <= 4)%Z -> In (q, f q) (map (fun quarter => (quarter, f quarter)) [1; 2; 3; 4]%Z).
Proof.
  intros H. apply in_map_iff. exists q. split; [reflexivity|].
  assert (q = 1 \/ q = 2 \/ q = 3 \/ q = 4)%Z as Hc by lia.
  destruct Hc as [-> | [-> | [-> | ->]]]; simpl; tauto.
Qed.

Lemma in_quarters_inv {B} (f : Z -> B) (q : Z) (b : B) :
  In (q, b) (map (fun quarter => (quarter, f quarter)) [1; 2; 3; 4]%Z) -> b = f q.
Proof.
  intros H. apply in_map_iff in H as (q' & Heq & _). inversion Heq. reflexivity.
Qed.

(** X13. The quarterly chart of [average_rating_overtime] has the four
    traces "Quarter 1" .. "Quarter 4" in this order. In each trace the
    years of the bars are strictly increasing (one bar per year at most),
    every bar comes from a review of that year and quarter, and every
    review with a timestamp contributes to the bar of its year in the trace
    of its quarter, whose height is the mean of the ratings of all reviews
    of that year and quarter. *)
Theorem average_rating_overtime_bars (df : list review)
  (traces : list (Z * list (Z * option Q))) :
  average_rating_overtime df = Some traces ->
  map fst traces = [1; 2; 3; 4]%Z /\
  (forall q bars, In (q, bars) traces -> StronglySorted Z.lt (map fst bars)) /\
  (forall q bars y m, In (q, bars) traces -> In (y, m) bars ->
     exists r t, In r df /\ datetime r = DTimestamp t /\ ts_year t = y /\
                 quarter_of (ts_month t) = q) /\
  (forall r t, In r df -> datetime r = DTimestamp t -> (1 <= ts_month t <= 12)%Z ->
     exists bars, In (quarter_of (ts_month t), bars) traces /\
       In (ts_year t,
           mean (rating_values
                   (map rating
                        (filter (fun r' => match datetime r' with
                                           | DTimestamp t' =>
                                               list_Z_eqb [ts_year t'; quarter_of (ts_month t')]
                                                          [ts_year t; quarter_of (ts_month t)]
                                           | _ => false end) df)))) bars).
Proof.
  unfold average_rating_overtime.
  destruct (dt_rows _ df) as [rows|] eqn:Hrows; [|discriminate].
  cbv beta iota.
  destruct (groupby_mean rows) as [L|] eqn:HgL; [|discriminate].
  intros H. injection H as <-.
  destruct (dt_rows_spec _ _ _ Hrows) as [Hin Hfil].
  assert (Hshape : forall k m, In (k, m) L ->
            exists r t, In r df /\ datetime r = DTimestamp t /\
                        k = [ts_year t; quarter_of (ts_month t)]).
  { intros k m Hk. apply (groupby_mean_in rows L k m HgL) in Hk as [Hk _].
    apply in_map_iff in Hk as (p & Hp & Hk). apply Hin in Hk as (r & t & Hr & Ht & ->).
    exists r, t. split; [exact Hr|]. split; [exact Ht | symmetry; exact Hp]. }
  split; [reflexivity|]. split; [|split].
  - intros q bars Hq.
    apply (in_quarters_inv (fun quarter => map (fun '(k, m) => (hd 0%Z k, m))
             (filter (fun '(k, _) => (nth 1 k 0 =? quarter)%Z) L))) in Hq. subst bars.
    rewrite map_map.
    apply (StronglySorted_map Z.lt).
    apply (StronglySorted_weaken_in
             (fun a b => lex_le (fst a) (fst b) = true /\ fst a <> fst b)).
    2: { apply StronglySorted_filter. exact (groupby_mean_sorted rows L HgL). }
    intros [ka ma] [kb mb] Ha Hb [Hle Hne]. simpl in *.
    apply filter_In in Ha as [Ha Hqa], Hb as [Hb Hqb].
    destruct (Hshape _ _ Ha) as (ra & ta & _ & _ & ->).
    destruct (Hshape _ _ Hb) as (rb & tb & _ & _ & ->).
    simpl in *. apply Z.eqb_eq in Hqa, Hqb.
    apply orb_true_iff in Hle as [Hlt|Hle]; [apply Z.ltb_lt; exact Hlt|].
    apply andb_prop in Hle as [Hy _]. apply Z.eqb_eq in Hy.
    exfalso. apply Hne. rewrite Hy, Hqa, Hqb. reflexivity.
  - intros q bars y m Hq Hb.
    apply (in_quarters_inv (fun quarter => map (fun '(k, m) => (hd 0%Z k, m))
             (filter (fun '(k, _) => (nth 1 k 0 =? quarter)%Z) L))) in Hq. subst bars.
    apply in_map_iff in Hb as ([k m'] & Heq & Hk). apply filter_In in Hk as [Hk Hq].
    destruct (Hshape _ _ Hk) as (r & t & Hr & Ht & ->). simpl in Heq, Hq.
    inversion Heq; subst y m'. apply Z.eqb_eq in Hq.
    exists r, t. repeat split; assumption.
  - intros r t Hr Ht Hm. eexists. split.
    + exact (in_quarters (fun quarter => map (fun '(k, m) => (hd 0%Z k, m))
               (filter (fun '(k, _) => (nth 1 k 0 =? quarter)%Z) L)) _ (quarter_of_range _ Hm)).
    + apply in_map_iff. exists ([ts_year t; quarter_of (ts_month t)],
        mean (rating_values (map snd (filter (fun p => list_Z_eqb (fst p)
                [ts_year t; quarter_of (ts_month t)]) rows)))).
      split; [rewrite Hfil; reflexivity|].
      apply filter_In. split; [|simpl; apply Z.eqb_refl].
      apply (groupby_mean_in rows L _ _ HgL). split; [|reflexivity].
      apply in_map_iff. exists ([ts_year t; quarter_of (ts_month t)], rating r).
      split; [reflexivity|]. apply Hin. exists r, t. split; [exact Hr|].
      split; [exact Ht | reflexivity].
Qed.

Lemma average_rating_overtime_bars_witness :
  average_rating_overtime review_example_table = Some ([(1, [(2022, Some 4%Q)]); (2, [(2023, Some 5%Q)]); (3, []); (4, [])]%Z) /\
  map fst ([(1, [(2022, Some 4%Q)]); (2, [(2023, Some 5%Q)]); (3, []); (4, [])]%Z) = [1; 2; 3; 4]%Z /\
  (forall q bars, In (q, bars) ([(1, [(2022, Some 4%Q)]); (2, [(2023, Some 5%Q)]); (3, []); (4, [])]%Z) -> StronglySorted Z.lt (map fst bars)) /\
  (forall q bars y m, In (q, bars) ([(1, [(2022, Some 4%Q)]); (2, [(2023, Some 5%Q)]); (3, []); (4, [])]%Z) -> In (y, m) bars ->
     exists r t, In r review_example_table /\ datetime r = DTimestamp t /\ ts_year t = y /\
                 quarter_of (ts_month t) = q) /\
  (forall r t, In r review_example_table -> datetime r = DTimestamp t -> (1 <= ts_month t <= 12)%Z ->
     exists bars, In (quarter_of (ts_month t), bars) ([(1, [(2022, Some 4%Q)]); (2, [(2023, Some 5%Q)]); (3, []); (4, [])]%Z) /\
       In (ts_year t,
           mean (rating_values
                   (map rating
                        (filter (fun r' => match datetime r' with
                                           | DTimestamp t' =>
                                               list_Z_eqb [ts_year t'; quarter_of (ts_month t')]
                                                          [ts_year t; quarter_of (ts_month t)]
                                           | _ => false end) review_example_table)))) bars).
Proof.
  assert (H : average_rating_overtime review_example_table = Some ([(1, [(2022, Some 4%Q)]); (2, [(2023, Some 5%Q)]); (3, []); (4, [])]%Z))
    by (vm_compute; reflexivity).
  split; [exact H|]. exact (average_rating_overtime_bars _ _ H).
Defined.

Lemma average_rating_overtime_none (df : list review) :
  average_rating_overtime df = None <->
  dt_rows (fun t => [ts_year t; quarter_of (ts_month t)]) df = None \/
  exists rows, dt_rows (fun t => [ts_year t; quarter_of (ts_month t)]) df = Some rows /\
               groupby_mean rows = None.
Proof.
  unfold average_rating_overtime.
  destruct (dt_rows _ df) as [rows|]; cbv beta iota.
  - destruct (groupby_mean rows) eqn:Hg.
    + split; [discriminate|]. intros [H | (rows' & H & Hg')]; [discriminate|].
      injection H as <-. congruence.
    + split; [intros _; right; exists rows; split; [reflexivity | exact Hg] | reflexivity].
  - split; [intros _; left; reflexivity | reflexivity].
Qed.

Lemma average_rating_wrt_month_year_none (df : list review) :
  average_rating_wrt_month_year df = None <->
  dt_rows (fun t => [ts_year t; ts_month t]) df = None \/
  exists rows, dt_rows (fun t => [ts_year t; ts_month t]) df = Some rows /\
               groupby_mean rows = None.
Proof.
  unfold average_rating_wrt_month_year.
  destruct (dt_rows _ df) as [rows|]; cbv beta iota.
  - destruct (groupby_mean rows) eqn:Hg.
    + split; [discriminate|]. intros [H | (rows' & H & Hg')]; [discriminate|].
      injection H as <-. congruence.
    + split; [intros _; right; exists rows; split; [reflexivity | exact Hg] | reflexivity].
  - split; [intros _; left; reflexivity | reflexivity].
Qed.

Lemma dt_rows_groupby_none (key : timestamp -> list Z) (df : list review) :
  (dt_rows key df = None \/
   exists rows, dt_rows key df = Some rows /\ groupby_mean rows = None) <->
  (exists r, In r df /\ ((exists s, datetime r = DText s) \/ (exists d, datetime r = DDate d))) \/
  (exists r t s, In r df /\ datetime r = DTimestamp t /\ rating r = CText s).
Proof.
  split.
  - intros [H | (rows & Hr & Hg)]; [left; apply (dt_rows_none key); exact H|].
    right. apply groupby_mean_none in Hg as (p & Hp & Ht).
    destruct (dt_rows_spec _ _ _ Hr) as [Hin _].
    apply Hin in Hp as (r & t & Hr' & Hdt & ->). simpl in Ht.
    destruct (rating r) as [|s|] eqn:Hq; try discriminate.
    exists r, t, s. repeat split; assumption.
  - intros [H | (r & t & s & Hr & Hdt & Hq)]; [left; apply (dt_rows_none key); exact H|].
    destruct (dt_rows key df) as [rows|] eqn:Hd; [|left; reflexivity].
    right. exists rows. split; [reflexivity|]. apply groupby_mean_none.
    exists (key t, rating r). split.
    + apply (proj1 (dt_rows_spec _ _ _ Hd)). exists r, t. repeat split; assumption.
    + simpl. rewrite Hq. reflexivity.
Qed.

(** X14. Each period chart ([average_rating_overtime] and
    [average_rating_wrt_month_year]) raises exactly when some review's
    [datetime] is neither a timestamp nor missing (a text, or a date after
    [.dt.date]), or some review with a timestamp has a text rating (the
    [mean] of its group raises a [TypeError]); reviews with a missing
    timestamp are only left out of the groups. *)
Theorem period_charts_raise (df : list review) :
  (average_rating_overtime df = None <->
   (exists r, In r df /\ ((exists s, datetime r = DText s) \/ (exists d, datetime r = DDate d))) \/
   (exists r t s, In r df /\ datetime r = DTimestamp t /\ rating r = CText s)) /\
  (average_rating_wrt_month_year df = None <->
   (exists r, In r df /\ ((exists s, datetime r = DText s) \/ (exists d, datetime r = DDate d))) \/
   (exists r t s, In r df /\ datetime r = DTimestamp t /\ rating r = CText s)).
Proof.
  rewrite average_rating_overtime_none, average_rating_wrt_month_year_none, !dt_rows_groupby_none.
  split; reflexivity.
Qed.

Lemma reviews_analysis_timestamps (pharmacy : string) (s e : date_value)
  (st st' : app_state) (res : list review) :
  reviews_analysis pharmacy s e st = Some (st', res) ->
  forall r, In r res -> exists t, datetime r = DTimestamp t.
Proof.
  unfold reviews_analysis.
  destruct (dt_date_column _ _) as [rs|]; [|discriminate].
  intros H. injection H as _ <-. intros r Hr.
  unfold filter_reviews_data in Hr. simpl in Hr.
  apply in_map_iff in Hr as (r1 & <- & Hr1). apply filter_In in Hr1 as [_ Hk].
  simpl. destruct (datetime r1) as [t|s'|d|]; try discriminate.
  exists (timestamp_of_date d). reflexivity.
Qed.

Lemma option_some_iff {A} (o : option A) : (exists x, o = Some x) <-> o <> None.
Proof.
  destruct o as [x|]; split.
  - intros _. discriminate.
  - intros _. exists x. reflexivity.
  - intros (x & H). discriminate.
  - intros H. contradiction H. reflexivity.
Qed.

Lemma chart_rows_ok (key : timestamp -> list Z) (df : list review) :
  (forall r, In r df -> exists t, datetime r = DTimestamp t) ->
  (~ (dt_rows key df = None \/
      exists rows, dt_rows key df = Some rows /\ groupby_mean rows = None) <->
   forall r, In r df -> is_text (rating r) = false).
Proof.
  intros Hts. rewrite dt_rows_groupby_none. split.
  - intros Hn r Hr. destruct (is_text (rating r)) eqn:E; [|reflexivity].
    exfalso. apply Hn. right. destruct (Hts r Hr) as (t & Ht).
    destruct (rating r) as [|x|] eqn:Hq; try discriminate.
    exists r, t, x. repeat split; assumption.
  - intros Hnt [(r & Hr & Hc) | (r & t & x & Hr & _ & Hq)].
    + destruct (Hts r Hr) as (t & Ht). rewrite Ht in Hc.
      destruct Hc as [(x & Hx) | (d & Hd)]; discriminate.
    + pose proof (Hnt r Hr) as Hf. rewrite Hq in Hf. discriminate.
Qed.

(** X15. The rows of a successful reviews analysis all hold timestamps
    again ([pd.to_datetime] on the selection), although the shared table
    they come from now holds dates. So each period chart drawn from them
    returns exactly when none of their ratings is a text. *)
Theorem reviews_analysis_charts (pharmacy : string) (s e : date_value)
  (st st' : app_state) (res : list review) :
  reviews_analysis pharmacy s e st = Some (st', res) ->
  (forall r, In r res -> exists t, datetime r = DTimestamp t) /\
  ((exists traces, average_rating_overtime res = Some traces) <->
     (forall r, In r res -> is_text (rating r) = false)) /\
  ((exists traces, average_rating_wrt_month_year res = Some traces) <->
     (forall r, In r res -> is_text (rating r) = false)).
Proof.
  intros H. pose proof (reviews_analysis_timestamps _ _ _ _ _ _ H) as Hts.
  split; [exact Hts|]. split.
  - rewrite option_some_iff, average_rating_overtime_none. exact (chart_rows_ok _ _ Hts).
  - rewrite option_some_iff, average_rating_wrt_month_year_none. exact (chart_rows_ok _ _ Hts).
Qed.

Lemma reviews_analysis_charts_witness :
  reviews_analysis "Apotheke A" period_start period_end shared_state_example
    = Some (shared_state_after_analysis,
            [{| place_Name := "Apotheke A"; reviewer := "Reviewer";
                text := CText "Sehr gut"; rating := CNum 5;
                datetime := DTimestamp (mkTimestamp 2023 5 1 0 0 0); date := None |}]) /\
  (forall r, In r [{| place_Name := "Apotheke A"; reviewer := "Reviewer";
                      text := CText "Sehr gut"; rating := CNum 5;
                      datetime := DTimestamp (mkTimestamp 2023 5 1 0 0 0); date := None |}] ->
             exists t, datetime r = DTimestamp t) /\
  ((exists traces, average_rating_overtime
     [{| place_Name := "Apotheke A"; reviewer := "Reviewer";
         text := CText "Sehr gut"; rating := CNum 5;
         datetime := DTimestamp (mkTimestamp 2023 5 1 0 0 0); date := None |}] = Some traces) <->
   (forall r, In r [{| place_Name := "Apotheke A"; reviewer := "Reviewer";
                       text := CText "Sehr gut"; rating := CNum 5;
                       datetime := DTimestamp (mkTimestamp 2023 5 1 0 0 0); date := None |}] ->
              is_text (rating r) = false)) /\
  ((exists traces, average_rating_wrt_month_year
     [{| place_Name := "Apotheke A"; reviewer := "Reviewer";
         text := CText "Sehr gut"; rating := CNum 5;
         datetime := DTimestamp (mkTimestamp 2023 5 1 0 0 0); date := None |}] = Some traces) <->
   (forall r, In r [{| place_Name := "Apotheke A"; reviewer := "Reviewer";
                       text := CText "Sehr gut"; rating := CNum 5;
                       datetime := DTimestamp (mkTimestamp 2023 5 1 0 0 0); date := None |}] ->
              is_text (rating r) = false)).
Proof.
  assert (H : reviews_analysis "Apotheke A" period_start period_end shared_state_example
    = Some (shared_state_after_analysis,
            [{| place_Name := "Apotheke A"; reviewer := "Reviewer";
                text := CText "Sehr gut"; rating := CNum 5;
                datetime := DTimestamp (mkTimestamp 2023 5 1 0 0 0); date := None |}]))
    by (vm_compute; reflexivity).
  split; [exact H|]. exact (reviews_analysis_charts _ _ _ _ _ _ H).
Defined.

Lemma NoDup_map_in {A B} (f : A -> B) (l : list A) :
  (forall a b, In a l -> In b l -> f a = f b -> a = b) -> NoDup l -> NoDup (map f l).
Proof.
  intros Hinj Hnd. induction Hnd as [|x l Hx Hnd IH]; simpl; [constructor|].
  constructor.
  - intros Hin. apply in_map_iff in Hin as (y & Hy & Hin).
    assert (y = x) by (apply Hinj; [right; exact Hin | left; reflexivity | exact Hy]).
    subst y. exact (Hx Hin).
  - apply IH. intros a b Ha Hb. apply Hinj; right; assumption.
Qed.

Lemma zleb_trans (a b c : Z) : (a <=? b)%Z = true -> (b <=? c)%Z = true -> (a <=? c)%Z = true.
Proof. rewrite !Z.leb_le. lia. Qed.

Lemma sorted_nodup_lt (l : list Z) :
  Sorted (fun a b => (a <=? b)%Z = true) l -> NoDup l -> StronglySorted Z.lt l.
Proof.
  intros Hs Hnd.
  apply (StronglySorted_weaken_in (fun a b => (a <=? b)%Z = true /\ a <> b)).
  - intros a b _ _ [Hab Hne]. apply Z.leb_le in Hab. lia.
  - apply StronglySorted_nodup; [|exact Hnd].
    apply Sorted_StronglySorted; [intros a b c; apply zleb_trans | exact Hs].
Qed.

Lemma month_le_total (a b : list Z * option Q) :
  (nth 1 (fst a) 0 <=? nth 1 (fst b) 0)%Z = false ->
  (nth 1 (fst b) 0 <=? nth 1 (fst a) 0)%Z = true.
Proof. apply zleb_total. Qed.

(** X16. The monthly chart of [average_rating_wrt_month_year] has one trace
    per year having a review with a timestamp, in strictly increasing year
    order, named after the year: its digits, followed by ".0" when some
    review's [datetime] is NaT (the [year] column is then a float column).
    The bars of the trace of a year are the months of that year having such
    a review, in strictly increasing month order, labelled "<Mon> <year>", each as high as the mean rating of the
    reviews of that month. *)
Theorem month_year_traces (df : list review)
  (traces : list (string * list (string * option Q))) :
  average_rating_wrt_month_year df = Some traces ->
  exists years,
    map fst traces = map (year_label (existsb (fun r => is_nat (datetime r)) df)) years /\ StronglySorted Z.lt years /\
    (forall y, In y years <->
       exists r t, In r df /\ datetime r = DTimestamp t /\ ts_year t = y) /\
    (forall nm bars, In (nm, bars) traces ->
       exists y months,
         nm = year_label (existsb (fun r => is_nat (datetime r)) df) y /\ In y years /\
         map fst bars = map (month_year_label y) months /\
         StronglySorted Z.lt months /\
         (forall m, In m months <->
            exists r t, In r df /\ datetime r = DTimestamp t /\ ts_year t = y /\ ts_month t = m) /\
         map snd bars =
           map (fun m => mean (rating_values
                  (map rating (filter (fun r' => match datetime r' with
                                                 | DTimestamp t' =>
                                                     list_Z_eqb [ts_year t'; ts_month t'] [y; m]
                                                 | _ => false end) df)))) months).
Proof.
  unfold average_rating_wrt_month_year.
  destruct (dt_rows _ df) as [rows|] eqn:Hrows; [|discriminate].
  cbv beta iota.
  destruct (groupby_mean rows) as [L|] eqn:HgL; [|discriminate].
  intros H. injection H as <-.
  destruct (dt_rows_spec _ _ _ Hrows) as [Hin Hfil].
  assert (HL : forall k m, In (k, m) L <->
            (exists r t, In r df /\ datetime r = DTimestamp t /\ k = [ts_year t; ts_month t]) /\
            m = mean (rating_values (map rating (filter (fun r' => match datetime r' with
                   | DTimestamp t' => list_Z_eqb [ts_year t'; ts_month t'] k
                   | _ => false end) df)))).
  { intros k m. rewrite (groupby_mean_in rows L k m HgL), Hfil. split.
    - intros [Hk Hm]. split; [|exact Hm].
      apply in_map_iff in Hk as (p & Hp & Hk). apply Hin in Hk as (r & t & Hr & Ht & ->).
      exists r, t. split; [exact Hr|]. split; [exact Ht | symmetry; exact Hp].
    - intros [(r & t & Hr & Ht & ->) Hm]. split; [|exact Hm].
      apply in_map_iff. exists ([ts_year t; ts_month t], rating r). split; [reflexivity|].
      apply Hin. exists r, t. split; [exact Hr|]. split; [exact Ht | reflexivity]. }
  set (years := sort_by Z.leb (nodup Z.eq_dec (map (fun '(k, _) => hd 0%Z k) L))).
  assert (Hyears : forall y, In y years <->
            exists r t, In r df /\ datetime r = DTimestamp t /\ ts_year t = y).
  { intros y. unfold years. split.
    - intros Hy. apply (Permutation_in _ (Permutation_sym (sort_by_perm _ _))), nodup_In in Hy.
      apply in_map_iff in Hy as ([k m] & Hk & HkL). apply HL in HkL as [(r & t & Hr & Ht & ->) _].
      exists r, t. split; [exact Hr|]. split; [exact Ht | exact Hk].
    - intros (r & t & Hr & Ht & <-).
      apply (Permutation_in _ (sort_by_perm _ _)), nodup_In, in_map_iff.
      eexists (_, _). split; [|apply HL; split; [exists r, t; split; [exact Hr|]; split;
        [exact Ht | reflexivity] | reflexivity]]. reflexivity. }
  exists years. split; [rewrite map_map; reflexivity|]. split.
  { apply sorted_nodup_lt.
    - apply sort_by_sorted. exact zleb_total.
    - apply (Permutation_NoDup (sort_by_perm _ _)). apply NoDup_nodup. }
  split; [exact Hyears|].
  intros nm bars Htr. apply in_map_iff in Htr as (y & Heq & Hy). injection Heq as <- <-.
  set (S := sort_by (fun a b => (nth 1 (fst a) 0 <=? nth 1 (fst b) 0)%Z)
                    (filter (fun '(k, _) => (hd 0%Z k =? y)%Z) L)).
  assert (HS : forall p, In p S <-> In p L /\ hd 0%Z (fst p) = y).
  { intros [k m]. unfold S. split.
    - intros Hp. apply (Permutation_in _ (Permutation_sym (sort_by_perm _ _))) in Hp.
      apply filter_In in Hp as [Hp Hk]. apply Z.eqb_eq in Hk. split; assumption.
    - intros [Hp Hk]. apply (Permutation_in _ (sort_by_perm _ _)). apply filter_In.
      split; [exact Hp | apply Z.eqb_eq; exact Hk]. }
  assert (Hshape : forall p, In p S -> exists m, fst p = [y; m]).
  { intros [k m] Hp. apply HS in Hp as [Hp Hk]. apply HL in Hp as [(r & t & _ & _ & ->) _].
    simpl in Hk |- *. subst y. eexists. reflexivity. }
  exists y, (map (fun p => nth 1 (fst p) 0%Z) S).
  split; [reflexivity|]. split; [exact Hy|]. split; [|split; [|split]].
  - rewrite !map_map. apply map_ext_in. intros [k m] Hp.
    destruct (Hshape _ Hp) as (mo & Hk). simpl in Hk. subst k. reflexivity.
  - apply sorted_nodup_lt.
    + apply StronglySorted_Sorted.
      apply (StronglySorted_map (fun a b => (a <=? b)%Z = true)).
      apply Sorted_StronglySorted.
      * intros a b c. apply zleb_trans.
      * apply sort_by_sorted. exact month_le_total.
    + rewrite <- (map_map fst (fun k => nth 1 k 0%Z)).
      apply NoDup_map_in.
      * intros a b Ha Hb Hab.
        apply in_map_iff in Ha as (pa & <- & Ha), Hb as (pb & <- & Hb).
        destruct (Hshape _ Ha) as (ma & Hma), (Hshape _ Hb) as (mb & Hmb).
        rewrite Hma, Hmb in Hab |- *. simpl in Hab. subst mb. reflexivity.
      * apply (Permutation_NoDup (Permutation_map fst (sort_by_perm _ _))).
        apply NoDup_map_filter. exact (groupby_mean_keys rows L HgL).
  - intros m. rewrite in_map_iff. split.
    + intros (p & <- & Hp). destruct (Hshape _ Hp) as (mo & Hmo).
      apply HS in Hp as [Hp _]. destruct p as [k mm]. simpl in Hmo. subst k.
      apply HL in Hp as [(r & t & Hr & Ht & Hk) _]. inversion Hk.
      exists r, t. repeat split; assumption.
    + intros (r & t & Hr & Ht & Hyt & Hm).
      eexists (_, _). split; [|apply HS; split; [apply HL; split;
        [exists r, t; split; [exact Hr|]; split; [exact Ht | reflexivity] | reflexivity]|]].
      * simpl. exact Hm.
      * simpl. exact Hyt.
  - rewrite !map_map. apply map_ext_in. intros [k m] Hp.
    destruct (Hshape _ Hp) as (mo & Hk). simpl in Hk. subst k.
    apply HS in Hp as [Hp _]. apply HL in Hp as [_ ->]. reflexivity.
Qed.

Lemma month_year_traces_witness :
  average_rating_wrt_month_year review_nat_table = Some [("2022.0", [("Mar 2022", Some 4%Q)]); ("2023.0", [("May 2023", Some 5%Q)])] /\
  exists years,
    map fst ([("2022.0", [("Mar 2022", Some 4%Q)]); ("2023.0", [("May 2023", Some 5%Q)])]) = map (year_label (existsb (fun r => is_nat (datetime r)) review_nat_table)) years /\ StronglySorted Z.lt years /\
    (forall y, In y years <->
       exists r t, In r review_nat_table /\ datetime r = DTimestamp t /\ ts_year t = y) /\
    (forall nm bars, In (nm, bars) ([("2022.0", [("Mar 2022", Some 4%Q)]); ("2023.0", [("May 2023", Some 5%Q)])]) ->
       exists y months,
         nm = year_label (existsb (fun r => is_nat (datetime r)) review_nat_table) y /\ In y years /\
         map fst bars = map (month_year_label y) months /\
         StronglySorted Z.lt months /\
         (forall m, In m months <->
            exists r t, In r review_nat_table /\ datetime r = DTimestamp t /\ ts_year t = y /\ ts_month t = m) /\
         map snd bars =
           map (fun m => mean (rating_values
                  (map rating (filter (fun r' => match datetime r' with
                                                 | DTimestamp t' =>
                                                     list_Z_eqb [ts_year t'; ts_month t'] [y; m]
                                                 | _ => false end) review_nat_table)))) months).
Proof.
  assert (H : average_rating_wrt_month_year review_nat_table = Some [("2022.0", [("Mar 2022", Some 4%Q)]); ("2023.0", [("May 2023", Some 5%Q)])])
    by (vm_compute; reflexivity).
  split; [exact H|]. exact (month_year_traces _ _ H).
Defined.
